(** * purple-vet-whatsapp: phone normalisation and message dispatch

    A shallow embedding of the two [WhatsAppService] classes of the
    repository (the Cloud-API service and the whatsapp-web.js session
    service) and the properties of their phone-number normalisation,
    result shapes and client life cycle.

    JavaScript strings are embedded as [string] (the UTF-8 bytes of the
    text, a lone surrogate in its three-byte form).  The character-level
    operations of the code are the regular expression [/\D/g],
    [startsWith('0')], [length] and [substring].  Every byte of a
    multi-byte UTF-8 sequence is above 127, hence a non-digit, so stripping
    bytes and stripping UTF-16 code units leave the same digit string;
    [length] and [substring(1)] are only ever taken of a digit string;
    [substring(0, 8)], taken of an arbitrary string, counts UTF-16 code
    units ([Js.substringTo]). *)

From Stdlib Require Import String Ascii List Bool Arith NArith ZArith Lia.
Import ListNotations.
Local Open Scope string_scope.

(* ================================================================== *)
(** ** JavaScript values and string primitives *)

Module Js.

(** [\d]: the ASCII digits 0-9. *)
Definition isDigit (c : ascii) : bool :=
  let n := nat_of_ascii c in (48 <=? n)%nat && (n <=? 57)%nat.

(** [s.replace(/\D/g, '')] *)
Fixpoint replaceNonDigits (s : string) : string :=
  match s with
  | EmptyString => EmptyString
  | String c rest =>
      if isDigit c then String c (replaceNonDigits rest)
      else replaceNonDigits rest
  end.

(** Whether [s] holds digits only. *)
Fixpoint allDigits (s : string) : bool :=
  match s with
  | EmptyString => true
  | String c rest => isDigit c && allDigits rest
  end.

(** [s.startsWith(p)] *)
Fixpoint startsWith (s p : string) {struct p} : bool :=
  match p, s with
  | EmptyString, _ => true
  | String _ _, EmptyString => false
  | String a p', String b s' => Ascii.eqb a b && startsWith s' p'
  end.

(** [s.substring(n)]: the string without its first [n] characters. *)
Fixpoint substringFrom (n : nat) (s : string) : string :=
  match n, s with
  | O, _ => s
  | S _, EmptyString => EmptyString
  | S m, String _ rest => substringFrom m rest
  end.

(** Truthiness of a string value: every string but the empty one. *)
Definition truthy (s : string) : bool :=
  match s with EmptyString => false | String _ _ => true end.

(** Truthiness of an optional string property: [undefined] and the empty
    string are falsy. *)
Definition truthyOpt (o : option string) : bool :=
  match o with Some s => truthy s | None => false end.

(** [a || b] on optional strings. *)
Definition orElse (a b : option string) : option string :=
  if truthyOpt a then a else b.

(** The line feed written [\n] in the source. *)
Definition LF : string := String (ascii_of_nat 10) EmptyString.

(** Interpolation [${v}] of a possibly undefined string. *)
Definition showString (o : option string) : string :=
  match o with Some s => s | None => "undefined" end.

(** The [error] object of a provider error body
    ([error.response.data.error]): its [message], and its [code] as the
    text a template literal prints for it (the code is only ever
    interpolated). *)
Record ProviderError := {
  pe_message : option string;
  pe_code : option string
}.

(** A caught value ([catch (error: any)]): the properties the handlers
    read, each possibly undefined.  [err_response_error] is the optional
    chain [error.response?.data?.error]. *)
Record Error := {
  err_message : option string;
  err_response_error : option ProviderError
}.

(** The [TypeError] raised by reading property [prop] of [undefined]. *)
Definition typeErrorUndefined (prop : string) : Error :=
  {| err_message :=
       Some ("Cannot read properties of undefined (reading '" ++ prop ++ "')");
     err_response_error := None |}.

(** The first [n] bytes, and what follows them. *)
Fixpoint takeBytes (n : nat) (s : string) : string :=
  match n, s with
  | S m, String c rest => String c (takeBytes m rest)
  | _, _ => EmptyString
  end.

Fixpoint dropBytes (n : nat) (s : string) : string :=
  match n, s with
  | S m, String _ rest => dropBytes m rest
  | _, _ => s
  end.

(** The bytes a character takes after its first byte [c], and whether it
    takes two UTF-16 code units (a character outside the basic plane, four
    bytes long). *)
Definition continuationBytes (c : ascii) : nat :=
  let n := nat_of_ascii c in
  if (n <? 192)%nat then 0
  else if (n <? 224)%nat then 1
  else if (n <? 240)%nat then 2
  else 3.

Definition twoUnits (c : ascii) : bool := (240 <=? nat_of_ascii c)%nat.

(** The high surrogate of the character encoded by the four bytes, in its
    three-byte form. *)
Definition highSurrogate (b0 b1 b2 b3 : ascii) : string :=
  let point :=
    ((N_of_ascii b0 mod 8) * 262144 + (N_of_ascii b1 mod 64) * 4096
     + (N_of_ascii b2 mod 64) * 64 + N_of_ascii b3 mod 64)%N in
  let high := (55296 + (point - 65536) / 1024)%N in
  String (ascii_of_N (224 + high / 4096))
    (String (ascii_of_N (128 + (high / 64) mod 64))
       (String (ascii_of_N (128 + high mod 64)) EmptyString)).

(** [s.substring(0, n)]: the first [n] UTF-16 code units, all of [s] when
    it is shorter.  A cut in the middle of a surrogate pair keeps the high
    surrogate. *)
Fixpoint substringTo (n : nat) (s : string) : string :=
  match n, s with
  | O, _ => EmptyString
  | S _, EmptyString => EmptyString
  | S m, String c rest =>
      if twoUnits c then
        match m with
        | O =>
            match rest with
            | String b1 (String b2 (String b3 _)) => highSurrogate c b1 b2 b3
            | _ => String c rest
            end
        | S m' => String c (takeBytes 3 rest) ++ substringTo m' (dropBytes 3 rest)
        end
      else
        String c (takeBytes (continuationBytes c) rest)
        ++ substringTo m (dropBytes (continuationBytes c) rest)
  end.

(** Whether [s] holds ASCII characters only. *)
Fixpoint allAscii (s : string) : bool :=
  match s with
  | EmptyString => true
  | String c rest => (nat_of_ascii c <? 128)%nat && allAscii rest
  end.

End Js.

(* ================================================================== *)
(** ** Effects: [this], outbound provider calls, exceptions *)

Module Eff.
Section Monad.
(** [S]: the fields of [this]; [C]: the outbound provider calls. *)
Context {S C : Type}.

Record World := { this : S; calls : list C }.

Inductive Outcome (A : Type) : Type :=
| Returned (a : A)
| Thrown (e : Js.Error).

Definition M (A : Type) : Type := World -> Outcome A * World.

Definition ret {A} (a : A) : M A := fun w => (Returned A a, w).

Definition throw {A} (e : Js.Error) : M A := fun w => (Thrown A e, w).

Definition bind {A B} (m : M A) (k : A -> M B) : M B :=
  fun w =>
    match m w with
    | (Returned _ a, w') => k a w'
    | (Thrown _ e, w') => (Thrown B e, w')
    end.

(** [try { body } catch (error) { handler }] *)
Definition tryCatch {A} (body : M A) (handler : Js.Error -> M A) : M A :=
  fun w =>
    match body w with
    | (Returned _ a, w') => (Returned A a, w')
    | (Thrown _ e, w') => handler e w'
    end.

Definition getThis : M S := fun w => (Returned S (this w), w).

Definition modifyThis (f : S -> S) : M unit :=
  fun w => (Returned unit tt, {| this := f (this w); calls := calls w |}).

(** [await c]: the call [c] goes out (it is appended to the trace) and
    the provider, which has seen the calls so far, settles it. *)
Definition await {A} (c : C) (provider : list C -> Js.Error + A) : M A :=
  fun w =>
    let w' := {| this := this w; calls := calls w ++ [c] |} in
    match provider (calls w) with
    | inl e => (Thrown A e, w')
    | inr a => (Returned A a, w')
    end.

(** [c] without [await]: the call goes out and the caller runs on. *)
Definition call (c : C) : M unit :=
  fun w => (Returned unit tt, {| this := this w; calls := calls w ++ [c] |}).
End Monad.

Arguments World : clear implicits.
Arguments M : clear implicits.
Arguments Returned {A} a.
Arguments Thrown {A} e.
End Eff.

Declare Scope eff_scope.
Delimit Scope eff_scope with eff.
Notation "x <- m ;; k" := (Eff.bind m (fun x => k))
  (at level 61, m at next level, right associativity) : eff_scope.
Notation "m ;;; k" := (Eff.bind m (fun _ => k))
  (at level 61, right associativity) : eff_scope.

(** The result of a send: [{ success, messageId?, error? }]. *)
Record SendResult := {
  success : bool;
  messageId : option string;
  error : option string
}.

(* ================================================================== *)
(** ** The Cloud-API service (whatsappService.ts, Cloud variant) *)

Module CloudApi.
Import Js Eff.

Record WhatsAppSendMessageRequest := {
  recipientPhone : string;
  recipientName : option string;
  message : string;
  linkUrl : option string;
  linkPreview : option bool
}.

(** The private fields of the service, fixed by the constructor. *)
Record Service := {
  apiUrl : string;
  accessToken : string;
  phoneNumberId : string;
  businessAccountId : string
}.

(** [!!(this.accessToken && this.phoneNumberId)] *)
Definition isConfigured (s : Service) : bool :=
  truthy (accessToken s) && truthy (phoneNumberId s).

Definition formatPhoneNumber (phone : string) : string :=
  let formatted := replaceNonDigits phone in
  let formatted :=
    if startsWith formatted "0" then substringFrom 1 formatted else formatted in
  let formatted :=
    if (String.length formatted <=? 11)%nat then "55" ++ formatted else formatted in
  formatted.

(** *** What goes out to the provider *)

Module TextMessage.
Record Text := { preview_url : bool; body : string }.
Record Payload := {
  messaging_product : string;
  recipient_type : string;
  to : string;
  type : string;
  text : Text
}.
End TextMessage.

Module TemplateMessage.
Record BodyParameter := { ptype : string; ptext : string }.
Record Component := { ctype : string; parameters : list BodyParameter }.
Record Language := { code : string }.
Record Template := {
  name : string;
  language : Language;
  components : option (list Component)
}.
Record Payload := {
  messaging_product : string;
  to : string;
  type : string;
  template : Template
}.
End TemplateMessage.

Inductive Payload :=
| TextPayload (p : TextMessage.Payload)
| TemplatePayload (p : TemplateMessage.Payload).

Record Headers := { Authorization : string; Content_Type : string }.

(** [axios.post(url, payload, { headers })] *)
Inductive Call := Post (url : string) (payload : Payload) (headers : Headers).

(** The body of a 2xx answer of the messages endpoint,
    [{ messages: [{ id }, ...] }]; a message may come without [id]. *)
Record ResponseMessage := { id : option string }.
Record Response := { messages : list ResponseMessage }.

(** The transport: it settles each call, knowing the calls made before. *)
Definition Axios := list Call -> Call -> Error + Response.

Definition ServiceM := M Service Call.

(** [response.data.messages[0].id]; reading [id] of a missing first
    element raises a [TypeError], a first element without [id] gives
    [undefined]. *)
Definition firstMessageId (response : Response) : ServiceM (option string) :=
  match messages response with
  | m :: _ => ret (id m)
  | [] => throw (typeErrorUndefined "id")
  end.

Definition messagesUrl (s : Service) : string :=
  apiUrl s ++ "/" ++ phoneNumberId s ++ "/messages".

Definition requestHeaders (s : Service) : Headers :=
  {| Authorization := "Bearer " ++ accessToken s;
     Content_Type := "application/json" |}.

Local Open Scope eff_scope.

Definition sendMessage (axios : Axios) (request : WhatsAppSendMessageRequest)
  : ServiceM SendResult :=
  this <- getThis ;;
  if negb (isConfigured this) then
    ret {| success := false;
           messageId := None;
           error := Some "WhatsApp Cloud API não está configurada. Verifique as variáveis de ambiente." |}
  else
    tryCatch
      (let formattedPhone := formatPhoneNumber (recipientPhone request) in
       let url := messagesUrl this in
       let messageText := message request in
       let messageText :=
         match linkUrl request with
         | Some l => if truthy l then messageText ++ LF ++ LF ++ "🔗 " ++ l
                     else messageText
         | None => messageText
         end in
       let payload :=
         {| TextMessage.messaging_product := "whatsapp";
            TextMessage.recipient_type := "individual";
            TextMessage.to := formattedPhone;
            TextMessage.type := "text";
            TextMessage.text :=
              {| TextMessage.preview_url :=
                   match linkPreview request with
                   | Some false => false
                   | _ => true
                   end;
                 TextMessage.body := messageText |} |} in
       let call := Post url (TextPayload payload) (requestHeaders this) in
       response <- await call (fun made => axios made call) ;;
       sent <- firstMessageId response ;;
       ret {| success := true; messageId := sent; error := None |})
      (fun error =>
         let errorMessage := "Erro ao enviar mensagem" in
         let errorMessage :=
           match err_response_error error with
           | Some whatsappError =>
               "WhatsApp API Error: " ++ showString (pe_message whatsappError)
               ++ " (Code: " ++ showString (pe_code whatsappError) ++ ")"
           | None =>
               match err_message error with
               | Some m => if truthy m then m else errorMessage
               | None => errorMessage
               end
           end in
         ret {| success := false; messageId := None; error := Some errorMessage |}).

Definition sendTemplateMessage (axios : Axios)
    (recipientPhone templateName : string) (languageCode : option string)
    (parameters : option (list string)) : ServiceM SendResult :=
  let languageCode :=
    match languageCode with Some l => l | None => "pt_BR" end in
  this <- getThis ;;
  if negb (isConfigured this) then
    ret {| success := false;
           messageId := None;
           error := Some "WhatsApp Cloud API não está configurada." |}
  else
    tryCatch
      (let formattedPhone := formatPhoneNumber recipientPhone in
       let url := messagesUrl this in
       let payload :=
         {| TemplateMessage.messaging_product := "whatsapp";
            TemplateMessage.to := formattedPhone;
            TemplateMessage.type := "template";
            TemplateMessage.template :=
              {| TemplateMessage.name := templateName;
                 TemplateMessage.language := {| TemplateMessage.code := languageCode |};
                 TemplateMessage.components :=
                   match parameters with
                   | Some (first :: others) =>
                       Some [ {| TemplateMessage.ctype := "body";
                                 TemplateMessage.parameters :=
                                   map (fun param =>
                                          {| TemplateMessage.ptype := "text";
                                             TemplateMessage.ptext := param |})
                                     (first :: others) |} ]
                   | _ => None
                   end |} |} in
       let call := Post url (TemplatePayload payload) (requestHeaders this) in
       response <- await call (fun made => axios made call) ;;
       sent <- firstMessageId response ;;
       ret {| success := true; messageId := sent; error := None |})
      (fun error =>
         ret {| success := false;
                messageId := None;
                error :=
                  orElse
                    match err_response_error error with
                    | Some e => pe_message e
                    | None => None
                    end
                    (err_message error) |}).

(** *** Status *)

Module Status.
Record WhatsAppStatus := {
  isConfigured : bool;
  phoneNumberId : string;
  apiVersion : string
}.
End Status.

Definition getStatus (s : Service) : Status.WhatsAppStatus :=
  {| Status.isConfigured := isConfigured s;
     Status.phoneNumberId :=
       if truthy (phoneNumberId s) then substringTo 8 (phoneNumberId s) ++ "..."
       else "not_set";
     Status.apiVersion := "v18.0" |}.

End CloudApi.

(* ================================================================== *)
(** ** The session service (whatsappService.ts, whatsapp-web.js variant) *)

Module Session.
Import Js Eff.

Record WhatsAppSendMessageRequest := {
  recipientPhone : string;
  recipientName : option string;
  content : string;
  mediaUrl : option string
}.

(** A constructed [Client] object, named by the order of construction. *)
Definition Client := nat.

Record Service := {
  client : option Client;
  isInitializing : bool;
  qrCodeData : option string;
  isReady : bool;
  phoneNumber : option string
}.

(** The state of a fresh singleton. *)
Definition fresh : Service :=
  {| client := None; isInitializing := false; qrCodeData := None;
     isReady := false; phoneNumber := None |}.

Definition set_client (v : option Client) (s : Service) : Service :=
  {| client := v; isInitializing := isInitializing s;
     qrCodeData := qrCodeData s; isReady := isReady s;
     phoneNumber := phoneNumber s |}.
Definition set_isInitializing (v : bool) (s : Service) : Service :=
  {| client := client s; isInitializing := v;
     qrCodeData := qrCodeData s; isReady := isReady s;
     phoneNumber := phoneNumber s |}.
Definition set_qrCodeData (v : option string) (s : Service) : Service :=
  {| client := client s; isInitializing := isInitializing s;
     qrCodeData := v; isReady := isReady s;
     phoneNumber := phoneNumber s |}.
Definition set_isReady (v : bool) (s : Service) : Service :=
  {| client := client s; isInitializing := isInitializing s;
     qrCodeData := qrCodeData s; isReady := v;
     phoneNumber := phoneNumber s |}.
Definition set_phoneNumber (v : option string) (s : Service) : Service :=
  {| client := client s; isInitializing := isInitializing s;
     qrCodeData := qrCodeData s; isReady := isReady s;
     phoneNumber := v |}.

(** *** The provider library *)

(** What [getNumberId] resolves to when it is not [null]. *)
Record ContactId := { _serialized : string }.

(** What [MessageMedia.fromUrl] resolves to. *)
Record MessageMedia := { mimetype : string; data : string }.

Inductive MessageContent :=
| TextContent (s : string)
| MediaContent (m : MessageMedia).

Record MessageSendOptions := { caption : string }.

(** What [client.sendMessage] resolves to; [id_serialized] is
    [id._serialized], which may be missing. *)
Record Message := { id_serialized : option string }.

Inductive Call :=
| NewClient (c : Client)
| ClientInitialize (c : Client)
| GetNumberId (c : Client) (number : string)
| MessageMediaFromUrl (url : string)
| ClientSendMessage (c : Client) (chatId : string)
    (content : MessageContent) (options : option MessageSendOptions)
| Logout (c : Client)
| Destroy (c : Client).

(** The provider settles each call, knowing the calls made before. *)
Record Provider := {
  clientInitialize : list Call -> Client -> Error + unit;
  getNumberId : list Call -> Client -> string -> Error + option ContactId;
  fromUrl : list Call -> string -> Error + MessageMedia;
  clientSendMessage :
    list Call -> Client -> string -> MessageContent ->
    option MessageSendOptions -> Error + Message;
  logout : list Call -> Client -> Error + unit;
  destroy : list Call -> Client -> Error + unit
}.

Definition ServiceM := M Service Call.

Local Open Scope eff_scope.

(** [sendMessage] is run as one piece: nothing else writes the service
    between its awaits, so the [this.client] it reads after an await is the
    client its guard saw. *)
Definition sendMessage (provider : Provider) (request : WhatsAppSendMessageRequest)
  : ServiceM SendResult :=
  this <- getThis ;;
  match client this, isReady this with
  | Some c, true =>
      tryCatch
        (let formattedPhone := replaceNonDigits (recipientPhone request) in
         numberId <- await (GetNumberId c formattedPhone)
                       (fun made => getNumberId provider made c formattedPhone) ;;
         let notRegistered :=
           ret {| success := false;
                  messageId := None;
                  error := Some ("O número " ++ recipientPhone request
                                 ++ " não está registrado no WhatsApp.") |} in
         match numberId with
         | None => notRegistered
         | Some found =>
             if negb (truthy (_serialized found)) then notRegistered
             else
               let validChatId := _serialized found in
               let plain :=
                 let text := TextContent (content request) in
                 await (ClientSendMessage c validChatId text None)
                   (fun made =>
                      clientSendMessage provider made c validChatId text None) in
               sentMessage <-
                 match mediaUrl request with
                 | Some url =>
                     if truthy url then
                       media <- await (MessageMediaFromUrl url)
                                  (fun made => fromUrl provider made url) ;;
                       let options := Some {| caption := content request |} in
                       await (ClientSendMessage c validChatId (MediaContent media) options)
                         (fun made =>
                            clientSendMessage provider made c validChatId
                              (MediaContent media) options)
                     else plain
                 | None => plain
                 end ;;
               ret {| success := true;
                      messageId := id_serialized sentMessage;
                      error := None |}
         end)
        (fun error =>
           ret {| success := false;
                  messageId := None;
                  error := orElse (err_message error)
                             (Some "Erro ao enviar mensagem") |})
  | _, _ =>
      ret {| success := false;
             messageId := None;
             error := Some "WhatsApp não está conectado. Inicialize o cliente primeiro." |}
  end.

Definition disconnect (provider : Provider) : ServiceM unit :=
  this <- getThis ;;
  match client this with
  | None => ret tt
  | Some c =>
      tryCatch
        (await (Logout c) (fun made => logout provider made c) ;;;
         await (Destroy c) (fun made => destroy provider made c) ;;;
         modifyThis (set_client None) ;;;
         modifyThis (set_isReady false) ;;;
         modifyThis (set_qrCodeData None) ;;;
         modifyThis (set_phoneNumber None))
        (fun error => throw error)
  end.

(** *** Life cycle *)

Definition isNewClient (c : Call) : bool :=
  match c with NewClient _ => true | _ => false end.

(** How many clients the calls made so far have constructed. *)
Definition constructed (made : list Call) : nat :=
  List.length (filter isNewClient made).

(** [new Client({ authStrategy, puppeteer })] *)
Definition newClient : ServiceM Client :=
  fun w =>
    let c := constructed (calls w) in
    (Returned c, {| this := this w; calls := calls w ++ [NewClient c] |}).

(** [this.client && this.isReady] *)
Definition clientReady (s : Service) : bool :=
  match client s with Some _ => isReady s | None => false end.

(** [initialize()] run to completion, nothing else running meanwhile. *)
Definition initialize (provider : Provider) : ServiceM unit :=
  this <- getThis ;;
  if clientReady this then ret tt
  else if isInitializing this then ret tt
  else
    tryCatch
      (modifyThis (set_isInitializing true) ;;;
       c <- newClient ;;
       modifyThis (set_client (Some c)) ;;;
       await (ClientInitialize c) (fun made => clientInitialize provider made c))
      (fun error => modifyThis (set_isInitializing false) ;;; throw error).

(** The same method cut at its [await]: [initialize_begin] is the code
    that runs before the caller is suspended, and answers the client whose
    [initialize()] promise it then waits for ([None] when it returned at a
    guard); [initialize_resume] is the code that runs once that promise
    has settled. *)
Definition initialize_begin : ServiceM (option Client) :=
  this <- getThis ;;
  if clientReady this then ret None
  else if isInitializing this then ret None
  else
    modifyThis (set_isInitializing true) ;;;
    c <- newClient ;;
    modifyThis (set_client (Some c)) ;;;
    call (ClientInitialize c) ;;;
    ret (Some c).

Definition initialize_resume (settled : Error + unit) : ServiceM unit :=
  match settled with
  | inr _ => ret tt
  | inl error => modifyThis (set_isInitializing false) ;;; throw error
  end.

(** The callbacks registered with [this.client.on]. *)
Definition on_qr (qr : string) (s : Service) : Service :=
  set_qrCodeData (Some qr) s.

Definition on_authenticated (s : Service) : Service :=
  set_qrCodeData None s.

(** [info] is [this.client?.info] reduced to its [wid.user]. *)
Definition on_ready (info : option string) (s : Service) : Service :=
  let s := set_isReady true s in
  let s := set_isInitializing false s in
  match client s, info with
  | Some _, Some user => set_phoneNumber (Some user) s
  | _, _ => s
  end.

Definition on_disconnected (reason : string) (s : Service) : Service :=
  set_qrCodeData None (set_isReady false s).

Definition on_auth_failure (msg : string) (s : Service) : Service :=
  set_isInitializing false (set_qrCodeData None (set_isReady false s)).

(** The four assignments of [disconnect()] after its awaits. *)
Definition disconnect_reset (s : Service) : Service :=
  set_phoneNumber None (set_qrCodeData None (set_isReady false (set_client None s))).

(** The process between two turns of the event loop: the service, the
    calls made, and the clients whose [initialize()] promise some caller
    of [initialize()] is still waiting for. *)
Record Process := {
  world : World Service Call;
  inFlight : list Client
}.

Definition start : Process :=
  {| world := {| this := fresh; calls := [] |}; inFlight := [] |}.

(** One turn of the event loop. *)
Inductive Event :=
| CallsInitialize
| InitializeSettles (c : Client) (settled : Error + unit)
| EmitsQr (qr : string)
| EmitsAuthenticated
| EmitsReady (info : option string)
| EmitsDisconnected (reason : string)
| EmitsAuthFailure (msg : string)
| DisconnectResets.

Definition onThis (f : Service -> Service) (p : Process) : Process :=
  {| world := {| this := f (this (world p)); calls := calls (world p) |};
     inFlight := inFlight p |}.

(** A callback runs only on a client that exists. *)
Definition emitted (f : Service -> Service) (p : Process) : option Process :=
  if (0 <? constructed (calls (world p)))%nat then Some (onThis f p) else None.

Definition step (e : Event) (p : Process) : option Process :=
  match e with
  | CallsInitialize =>
      match initialize_begin (world p) with
      | (Returned (Some c), w) => Some {| world := w; inFlight := c :: inFlight p |}
      | (Returned None, w) => Some {| world := w; inFlight := inFlight p |}
      | (Thrown _, _) => None
      end
  | InitializeSettles c settled =>
      if existsb (Nat.eqb c) (inFlight p) then
        Some {| world := snd (initialize_resume settled (world p));
                inFlight := filter (fun c' => negb (c' =? c)%nat) (inFlight p) |}
      else None
  | EmitsQr qr => emitted (on_qr qr) p
  | EmitsAuthenticated => emitted on_authenticated p
  | EmitsReady info => emitted (on_ready info) p
  | EmitsDisconnected reason => emitted (on_disconnected reason) p
  | EmitsAuthFailure msg => emitted (on_auth_failure msg) p
  | DisconnectResets => emitted disconnect_reset p
  end.

(** A run of turns, each admitted by [allowed] in the state it meets. *)
Fixpoint run (allowed : Event -> Process -> bool) (es : list Event) (p : Process)
  : option Process :=
  match es with
  | [] => Some p
  | e :: rest =>
      if allowed e p then
        match step e p with
        | Some p' => run allowed rest p'
        | None => None
        end
      else None
  end.

Definition anyTurn (e : Event) (p : Process) : bool := true.

(** Turns that leave the guards of [initialize()] closed while a call of it
    is in flight: the callbacks that clear [isReady] or [isInitializing],
    and the reset of [disconnect()], wait until none is. *)
Definition keepsGuard (e : Event) (p : Process) : bool :=
  match e with
  | EmitsDisconnected _ | EmitsAuthFailure _ | DisconnectResets =>
      match inFlight p with [] => true | _ :: _ => false end
  | _ => true
  end.

(** What the guards of [initialize()] test. *)
Definition guarded (s : Service) : bool := isInitializing s || clientReady s.

(** At most one call of [initialize()] is in flight, and while one is, the
    guards are closed and the client is there. *)
Definition singleFlight (p : Process) : Prop :=
  (List.length (inFlight p) <= 1)%nat
  /\ (inFlight p <> [] ->
      guarded (this (world p)) = true /\ client (this (world p)) <> None).

(** *** Status *)

Module Status.
Record WhatsAppStatus := {
  isConnected : bool;
  phoneNumber : option string;
  qrCode : option string
}.
End Status.

Definition getQRCode (s : Service) : option string := qrCodeData s.

(** [v || undefined] *)
Definition getStatus (s : Service) : Status.WhatsAppStatus :=
  {| Status.isConnected := isReady s;
     Status.phoneNumber := orElse (phoneNumber s) None;
     Status.qrCode := orElse (qrCodeData s) None |}.

End Session.

(* ================================================================== *)
(** ** The API-key middleware (middleware/auth.ts) *)

Module Auth.
Import Js.

(** What a header or a query parameter can hold: nothing, a string, or an
    array or object (a repeated or nested query parameter). *)
Inductive Value :=
| Absent
| Text (s : string)
| Structured.

Definition truthyValue (v : Value) : bool :=
  match v with
  | Absent => false
  | Text s => truthy s
  | Structured => true
  end.

(** [a || b] *)
Definition orValue (a b : Value) : Value := if truthyValue a then a else b.

(** [v !== k] for a string [k] *)
Definition differs (v : Value) (k : string) : bool :=
  match v with
  | Text s => negb (String.eqb s k)
  | _ => true
  end.

Record Request := {
  header_x_api_key : Value;
  query_apiKey : Value
}.

(** What the middleware does with a request: it answers it itself with
    [{ success: false, error }] under a status, or hands it on. *)
Inductive Verdict :=
| Rejected (status : nat) (error : string)
| Next.

(** [expectedKey] is [process.env.API_SECRET]. *)
Definition authenticateApiKey (expectedKey : option string) (req : Request) : Verdict :=
  let apiKey := orValue (header_x_api_key req) (query_apiKey req) in
  if negb (truthyOpt expectedKey) then
    Rejected 500 "API_SECRET not configured"
  else if negb (truthyValue apiKey)
          || differs apiKey (match expectedKey with Some k => k | None => EmptyString end)
  then Rejected 401 "Invalid or missing API key"
  else Next.

End Auth.

(* ================================================================== *)
(** ** HTTP answers *)

Module Http.

(** The JSON bodies the handlers send. *)
Inductive Body :=
| Failure (error : option string)           (* { success: false, error } *)
| FailureMessage (message : string)         (* { success: false, message } *)
| SuccessMessage (message : string)         (* { success: true, message } *)
| Result (r : SendResult)                   (* the result of a send *)
| SessionStatus (s : Session.Status.WhatsAppStatus)
| CloudStatus (s : CloudApi.Status.WhatsAppStatus)  (* { success: true, ...status } *)
| QrImage (qrCode qrData : string)          (* { success: true, qrCode, qrData } *)
| Health                                    (* { status: 'ok', service } *)
| TooManyRequests.                          (* the rate limiter's message *)

(** [res.status(n).json(b)]; [res.json(b)] answers under 200. *)
Record Response := { status : nat; body : Body }.

Definition json (b : Body) : Response := {| status := 200; body := b |}.

End Http.

(* ================================================================== *)
(** ** The routes of the session service (routes/whatsapp.ts) *)

Module SessionRoutes.
Import Js Eff Session Http.
Local Open Scope eff_scope.

(** [req.body] of the two sending routes, each field a string or missing. *)
Record SendBody := {
  recipientPhone : option string;
  recipientName : option string;
  content : option string;
  mediaUrl : option string
}.

Definition text (o : option string) : string :=
  match o with Some s => s | None => EmptyString end.

Definition answerResult (result : SendResult) : Response :=
  if success result then json (Result result)
  else {| status := 400; body := Result result |}.

Definition postInitialize (provider : Provider) : ServiceM Response :=
  tryCatch
    (initialize provider ;;;
     ret (json (SuccessMessage
                  "Cliente WhatsApp inicializado. Aguarde a geração do QR Code.")))
    (fun error =>
       ret {| status := 500;
              body := Failure (orElse (err_message error)
                                 (Some "Erro ao inicializar WhatsApp")) |}).

Definition getStatusRoute : ServiceM Response :=
  this <- getThis ;;
  ret (json (SessionStatus (getStatus this))).

(** [toDataURL] is [QRCode.toDataURL] of the qrcode package. *)
Definition getQr (toDataURL : string -> Error + string) : ServiceM Response :=
  tryCatch
    (this <- getThis ;;
     match getQRCode this with
     | Some (String a rest) =>
         let qrData := String a rest in
         match toDataURL qrData with
         | inr qrImage => ret (json (QrImage qrImage qrData))
         | inl error => throw error
         end
     | _ =>
         ret {| status := 404;
                body := FailureMessage
                          "QR Code não disponível. Inicialize o cliente primeiro." |}
     end)
    (fun error => ret {| status := 500; body := Failure (err_message error) |}).

Definition postSend (provider : Provider) (body : SendBody) : ServiceM Response :=
  tryCatch
    (if negb (truthyOpt (recipientPhone body)) || negb (truthyOpt (content body)) then
       ret {| status := 400;
              body := Failure (Some "recipientPhone e content são obrigatórios") |}
     else
       result <- sendMessage provider
                   {| Session.recipientPhone := text (recipientPhone body);
                      Session.recipientName := recipientName body;
                      Session.content := text (content body);
                      Session.mediaUrl := None |} ;;
       ret (answerResult result))
    (fun error => ret {| status := 500; body := Failure (err_message error) |}).

Definition postSendMedia (provider : Provider) (body : SendBody) : ServiceM Response :=
  tryCatch
    (if negb (truthyOpt (recipientPhone body)) || negb (truthyOpt (content body))
        || negb (truthyOpt (mediaUrl body)) then
       ret {| status := 400;
              body := Failure
                        (Some "recipientPhone, content e mediaUrl são obrigatórios") |}
     else
       result <- sendMessage provider
                   {| Session.recipientPhone := text (recipientPhone body);
                      Session.recipientName := recipientName body;
                      Session.content := text (content body);
                      Session.mediaUrl := mediaUrl body |} ;;
       ret (answerResult result))
    (fun error => ret {| status := 500; body := Failure (err_message error) |}).

Definition postDisconnect (provider : Provider) : ServiceM Response :=
  tryCatch
    (disconnect provider ;;;
     ret (json (SuccessMessage "Cliente WhatsApp desconectado com sucesso")))
    (fun error => ret {| status := 500; body := Failure (err_message error) |}).

(** *** The application (index.ts) *)

Inductive Endpoint :=
| GetHealth
| PostInitialize
| GetStatus
| GetQr
| PostSend (body : SendBody)
| PostSendMedia (body : SendBody)
| PostDisconnect.

Definition route (provider : Provider) (toDataURL : string -> Error + string)
    (e : Endpoint) : ServiceM Response :=
  match e with
  | GetHealth => ret (json Health)
  | PostInitialize => postInitialize provider
  | GetStatus => getStatusRoute
  | GetQr => getQr toDataURL
  | PostSend body => postSend provider body
  | PostSendMedia body => postSendMedia provider body
  | PostDisconnect => postDisconnect provider
  end.

(** One request through the application.  [helmet()] and [cors()] come
    first and only add headers to the answers of the requests modelled
    here.  [express.json()] and [express.urlencoded()] come next:
    [unparsed] is the error they raise on a body they cannot read, which
    the error handler at the end of the chain answers with 500.  Then
    [/health] is answered; everything under [/api] passes the rate limiter
    ([withinLimit] is its decision), and under [/api/whatsapp] the API-key
    middleware, before it reaches a route. *)
Definition handle (provider : Provider) (toDataURL : string -> Error + string)
    (API_SECRET : option string) (unparsed : option Error) (withinLimit : bool)
    (credentials : Auth.Request) (e : Endpoint) : ServiceM Response :=
  match unparsed with
  | Some err =>
      ret {| status := 500;
             body := Failure (orElse (err_message err)
                                (Some "Internal server error")) |}
  | None =>
      match e with
      | GetHealth => ret (json Health)
      | _ =>
          if negb withinLimit then ret {| status := 429; body := TooManyRequests |}
          else
            match Auth.authenticateApiKey API_SECRET credentials with
            | Auth.Rejected status error =>
                ret {| status := status; body := Failure (Some error) |}
            | Auth.Next => route provider toDataURL e
            end
      end
  end.

End SessionRoutes.

(* ================================================================== *)
(** ** The routes of the Cloud-API service (routes/whatsapp.ts, Cloud variant) *)

Module CloudRoutes.
Import Js Eff CloudApi Http.
Local Open Scope eff_scope.

Definition answerResult (result : SendResult) : Response :=
  if success result then json (Result result)
  else {| status := 400; body := Result result |}.

Definition getStatusRoute : ServiceM Response :=
  this <- getThis ;;
  ret (json (CloudStatus (getStatus this))).

(** [validated] is [sendMessageSchema.validate(req.body)] of the joi
    package: the first error's message, or the validated value. *)
Definition postSend (axios : Axios)
    (validated : string + WhatsAppSendMessageRequest) : ServiceM Response :=
  tryCatch
    (match validated with
     | inl message => ret {| status := 400; body := Failure (Some message) |}
     | inr value =>
         result <- sendMessage axios value ;;
         ret (answerResult result)
     end)
    (fun error =>
       ret {| status := 500;
              body := Failure (orElse (err_message error)
                                 (Some "Erro ao enviar mensagem")) |}).

(** [req.body] of the link shortcut, each field a string or missing. *)
Record LinkBody := {
  recipientPhone : option string;
  linkUrl : option string;
  message : option string
}.

Definition postSendLink (axios : Axios) (body : LinkBody) : ServiceM Response :=
  tryCatch
    (if negb (truthyOpt (recipientPhone body)) || negb (truthyOpt (linkUrl body)) then
       ret {| status := 400;
              body := Failure (Some "recipientPhone e linkUrl são obrigatórios") |}
     else
       let messageText :=
         match orElse (message body) (Some "Acesse o link abaixo:") with
         | Some m => m
         | None => EmptyString
         end in
       result <- sendMessage axios
                   {| CloudApi.recipientPhone :=
                        match recipientPhone body with Some p => p | None => EmptyString end;
                      CloudApi.recipientName := None;
                      CloudApi.message := messageText;
                      CloudApi.linkUrl := linkUrl body;
                      CloudApi.linkPreview := Some true |} ;;
       ret (answerResult result))
    (fun error => ret {| status := 500; body := Failure (err_message error) |}).

End CloudRoutes.

(* ================================================================== *)
(** ** The normaliser as the specification words it *)

Module Spec.

(** Strip all non-digit characters. *)
Definition digitsOf (p : string) : list ascii :=
  filter Js.isDigit (list_ascii_of_string p).

(** If the result begins with a leading 0, drop it. *)
Definition dropLeadingZero (ds : list ascii) : list ascii :=
  match ds with
  | "0"%char :: rest => rest
  | _ => ds
  end.

(** If the resulting length is at most 11 digits, prepend the default
    country code 55. *)
Definition withCountryCode (ds : list ascii) : list ascii :=
  if (List.length ds <=? 11)%nat then "5"%char :: "5"%char :: ds else ds.

Definition normalize (p : string) : string :=
  string_of_list_ascii (withCountryCode (dropLeadingZero (digitsOf p))).




(** The part of it the code keeps whatever id the provider acknowledges: a
    success carries no error; a failure carries an error and no message
    id. *)
Definition resultShape (r : SendResult) : Prop :=
  (success r = true -> error r = None)
  /\ (success r = false -> error r <> None /\ messageId r = None).

End Spec.

(* ================================================================== *)
(** ** Predicates the properties below are stated with *)

Module CloudContracts.
Import Js Eff CloudApi.

(** What a method of the service may send: nothing, or one POST to the
    messages endpoint of a configured service under its bearer token. *)
Definition authorised (s : Service) (added : list Call) : Prop :=
  added = []
  \/ (isConfigured s = true
      /\ exists payload, added = [Post (messagesUrl s) payload (requestHeaders s)]).

End CloudContracts.

Module SessionContracts.
Import Js Eff Session Http SessionRoutes.

(** The failure a rejected provider call is turned into. *)
Definition rejected (e : Error) : SendResult :=
  {| success := false;
     messageId := None;
     error := orElse (err_message e) (Some "Erro ao enviar mensagem") |}.

Definition isSend (c : Call) : bool :=
  match c with ClientSendMessage _ _ _ _ => true | _ => false end.

(** The calls [sendMessage] may make on the client [current]. *)
Definition sendingCall (current : option Client) (c : Call) : Prop :=
  match c with
  | GetNumberId c' _ | ClientSendMessage c' _ _ _ => current = Some c'
  | MessageMediaFromUrl _ => True
  | NewClient _ | ClientInitialize _ | Logout _ | Destroy _ => False
  end.

(** The clients the service knows are clients it has constructed: the one
    in [this.client], and those whose start is awaited, each awaited once;
    and before the first construction the service is as it was created. *)
Definition knownClients (p : Process) : Prop :=
  let made := constructed (calls (world p)) in
  (forall c, client (this (world p)) = Some c -> (c < made)%nat)
  /\ Forall (fun c => (c < made)%nat) (inFlight p)
  /\ NoDup (inFlight p)
  /\ (made = 0 -> this (world p) = fresh).

(** What POST /send lets out: lookups, and the content as plain text. *)
Definition plainOnly (content : string) (c : Call) : Prop :=
  match c with
  | GetNumberId _ _ => True
  | ClientSendMessage _ _ sent options => sent = TextContent content /\ options = None
  | _ => False
  end.

(** What POST /send-media lets out: lookups, downloads of the given URL,
    and media under the content as caption. *)
Definition mediaOnly (content url : string) (c : Call) : Prop :=
  match c with
  | GetNumberId _ _ => True
  | MessageMediaFromUrl fetched => fetched = url
  | ClientSendMessage _ _ sent options =>
      (exists media, sent = MediaContent media)
      /\ options = Some {| caption := content |}
  | _ => False
  end.

(** The turns that do not clear isInitializing: all but the ready and
    auth_failure callbacks and a rejected start of the client. *)
Definition keepsFlag (e : Event) : bool :=
  match e with
  | EmitsReady _ | EmitsAuthFailure _ | InitializeSettles _ (inl _) => false
  | _ => true
  end.

End SessionContracts.

(* ================================================================== *)
(** ** Sample values the concrete lemmas run on *)

Module Sample.
Import Js.

Definition cloud : CloudApi.Service :=
  {| CloudApi.apiUrl := "https://graph.facebook.com/v18.0";
     CloudApi.accessToken := "token";
     CloudApi.phoneNumberId := "1234567890";
     CloudApi.businessAccountId := EmptyString |}.

(** The service as the constructor leaves it with no environment set. *)
Definition cloudUnset : CloudApi.Service :=
  {| CloudApi.apiUrl := "https://graph.facebook.com/v18.0";
     CloudApi.accessToken := EmptyString;
     CloudApi.phoneNumberId := EmptyString;
     CloudApi.businessAccountId := EmptyString |}.

(** A transport that accepts every message under the id wamid.1. *)
Definition accepting : CloudApi.Axios :=
  fun _ _ => inr {| CloudApi.messages := [ {| CloudApi.id := Some "wamid.1" |} ] |}.



Definition hi : CloudApi.WhatsAppSendMessageRequest :=
  {| CloudApi.recipientPhone := "11999999999";
     CloudApi.recipientName := None;
     CloudApi.message := "hi";
     CloudApi.linkUrl := Some "https://x.com";
     CloudApi.linkPreview := None |}.

Definition connected : Session.Service :=
  {| Session.client := Some 0;
     Session.isInitializing := false;
     Session.qrCodeData := None;
     Session.isReady := true;
     Session.phoneNumber := Some "5511988887777" |}.

Definition timeout : Error :=
  {| err_message := Some "Protocol error: session closed";
     err_response_error := None |}.

(** A provider on which every number is registered and every call
    succeeds. *)
Definition healthy : Session.Provider :=
  {| Session.clientInitialize := fun _ _ => inr tt;
     Session.getNumberId := fun _ _ number =>
       inr (Some {| Session._serialized := number ++ "@c.us" |});
     Session.fromUrl := fun _ url =>
       inr {| Session.mimetype := "application/pdf"; Session.data := url |};
     Session.clientSendMessage := fun _ _ _ _ _ =>
       inr {| Session.id_serialized := Some "true_5511@c.us_3EB0" |};
     Session.logout := fun _ _ => inr tt;
     Session.destroy := fun _ _ => inr tt |}.

(** The same provider with a [logout] that is rejected. *)
Definition logoutFails : Session.Provider :=
  {| Session.clientInitialize := Session.clientInitialize healthy;
     Session.getNumberId := Session.getNumberId healthy;
     Session.fromUrl := Session.fromUrl healthy;
     Session.clientSendMessage := Session.clientSendMessage healthy;
     Session.logout := fun _ _ => inl timeout;
     Session.destroy := Session.destroy healthy |}.

Definition report : Session.WhatsAppSendMessageRequest :=
  {| Session.recipientPhone := "(11) 99999-9999";
     Session.recipientName := None;
     Session.content := "Laudo";
     Session.mediaUrl := Some "https://x.com/laudo.pdf" |}.

(** The healthy provider with a media download that is rejected. *)
Definition downloadFails : Session.Provider :=
  {| Session.clientInitialize := Session.clientInitialize healthy;
     Session.getNumberId := Session.getNumberId healthy;
     Session.fromUrl := fun _ _ => inl timeout;
     Session.clientSendMessage := Session.clientSendMessage healthy;
     Session.logout := Session.logout healthy;
     Session.destroy := Session.destroy healthy |}.

(** The healthy provider with a client whose start is rejected. *)
Definition startFails : Session.Provider :=
  {| Session.clientInitialize := fun _ _ => inl timeout;
     Session.getNumberId := Session.getNumberId healthy;
     Session.fromUrl := Session.fromUrl healthy;
     Session.clientSendMessage := Session.clientSendMessage healthy;
     Session.logout := Session.logout healthy;
     Session.destroy := Session.destroy healthy |}.

End Sample.

(* ================================================================== *)
(** ** Phone normalisation *)

Section PhoneNormalizer.
Import Js CloudApi.

Lemma replaceNonDigits_allDigits (s : string) :
  allDigits (replaceNonDigits s) = true.
Proof.
  induction s as [|c rest IH]; simpl; [reflexivity|].
  destruct (isDigit c) eqn:Hc; simpl; [rewrite Hc|]; exact IH.
Qed.

Lemma replaceNonDigits_fixes_digits (s : string) :
  allDigits s = true -> replaceNonDigits s = s.
Proof.
  induction s as [|c rest IH]; simpl; [reflexivity|].
  intros H. apply andb_true_iff in H as [Hc Hrest].
  rewrite Hc, (IH Hrest). reflexivity.
Qed.

Lemma replaceNonDigits_filter (s : string) :
  list_ascii_of_string (replaceNonDigits s) = Spec.digitsOf s.
Proof.
  unfold Spec.digitsOf.
  induction s as [|c rest IH]; simpl; [reflexivity|].
  destruct (isDigit c); simpl; rewrite IH; reflexivity.
Qed.

Lemma length_list_ascii (s : string) :
  List.length (list_ascii_of_string s) = String.length s.
Proof. induction s; simpl; congruence. Qed.

Lemma startsWith_zero (s : string) :
  startsWith s "0" = match s with String "0"%char _ => true | _ => false end.
Proof.
  destruct s as [|c rest]; simpl; [reflexivity|].
  destruct c as [[] [] [] [] [] [] [] []]; reflexivity.
Qed.

Lemma formatPhoneNumber_allDigits (p : string) :
  allDigits (formatPhoneNumber p) = true.
Proof.
  unfold formatPhoneNumber.
  pose proof (replaceNonDigits_allDigits p) as Hd.
  set (d := replaceNonDigits p) in *.
  assert (Hdrop : allDigits (if startsWith d "0" then substringFrom 1 d else d) = true).
  { destruct (startsWith d "0"); [|exact Hd].
    destruct d as [|c rest]; simpl in *; [reflexivity|].
    apply andb_true_iff in Hd. tauto. }
  destruct (_ <=? 11)%nat; [|exact Hdrop].
  simpl. exact Hdrop.
Qed.

Lemma dropLeadingZero_agrees (d : string) :
  list_ascii_of_string (if startsWith d "0" then substringFrom 1 d else d)
  = Spec.dropLeadingZero (list_ascii_of_string d).
Proof.
  rewrite startsWith_zero.
  destruct d as [|c rest]; [reflexivity|].
  destruct c as [[] [] [] [] [] [] [] []]; reflexivity.
Qed.

Lemma withCountryCode_agrees (d : string) :
  (if (String.length d <=? 11)%nat then "55" ++ d else d)
  = string_of_list_ascii (Spec.withCountryCode (list_ascii_of_string d)).
Proof.
  unfold Spec.withCountryCode. rewrite length_list_ascii.
  destruct (String.length d <=? 11)%nat; simpl;
    rewrite string_of_list_ascii_of_string; reflexivity.
Qed.

Lemma formatPhoneNumber_normalize (p : string) :
  formatPhoneNumber p = Spec.normalize p.
Proof.
  unfold formatPhoneNumber, Spec.normalize.
  rewrite withCountryCode_agrees, dropLeadingZero_agrees, replaceNonDigits_filter.
  reflexivity.
Qed.

(** C1: the Cloud-API normalisation is exactly the three steps of the
    specification (strip the non-digits, drop one leading 0, prepend 55
    when at most 11 digits remain), and gives 5511999999999 on the four
    sample inputs, the last of which loses its leading zero and is then
    long enough to be left without prefix. *)
Theorem formatPhoneNumber_spec :
  (forall p, formatPhoneNumber p = Spec.normalize p)
  /\ formatPhoneNumber "11999999999" = "5511999999999"
  /\ formatPhoneNumber "+55 11 99999-9999" = "5511999999999"
  /\ formatPhoneNumber "(11) 99999-9999" = "5511999999999"
  /\ formatPhoneNumber "05511999999999" = "5511999999999".
Proof.
  split; [exact formatPhoneNumber_normalize|].
  repeat split; vm_compute; reflexivity.
Qed.

(** C2, as stated, fails: a number whose digits begin with 00 keeps one
    zero after the first pass (12 digits or more, so past the threshold),
    and the second pass removes it. *)
Lemma formatPhoneNumber_second_pass_drops_zero :
  (11 < String.length (formatPhoneNumber "001234567890123"))%nat
  /\ formatPhoneNumber (formatPhoneNumber "001234567890123")
     <> formatPhoneNumber "001234567890123".
Proof.
  split; [vm_compute; lia|].
  vm_compute. discriminate.
Qed.

(** C2, amended: once the result is longer than 11 digits and does not
    itself begin with 0, normalising it again changes nothing. *)
Theorem formatPhoneNumber_idempotent (x : string) :
  (11 < String.length (formatPhoneNumber x))%nat ->
  startsWith (formatPhoneNumber x) "0" = false ->
  formatPhoneNumber (formatPhoneNumber x) = formatPhoneNumber x.
Proof.
  intros Hlen Hzero.
  pose proof (formatPhoneNumber_allDigits x) as Hd.
  set (y := formatPhoneNumber x) in *.
  unfold formatPhoneNumber at 1.
  rewrite (replaceNonDigits_fixes_digits y Hd), Hzero.
  apply Nat.leb_gt in Hlen. rewrite Hlen. reflexivity.
Qed.

Lemma formatPhoneNumber_idempotent_witness :
  formatPhoneNumber (formatPhoneNumber "(11) 99999-9999")
  = formatPhoneNumber "(11) 99999-9999".
Proof.
  apply (formatPhoneNumber_idempotent "(11) 99999-9999").
  - vm_compute. lia.
  - reflexivity.
Defined.

(** C4, as stated, fails: the empty input is not mapped to the empty
    string. *)
Lemma formatPhoneNumber_empty_not_empty :
  formatPhoneNumber EmptyString <> EmptyString.
Proof. vm_compute. discriminate. Qed.

(** C4, amended: an input with no digit in it, the empty string first of
    all, is at most 11 digits long and so is mapped to the bare country
    code 55. *)
Theorem formatPhoneNumber_no_digits (p : string) :
  replaceNonDigits p = EmptyString -> formatPhoneNumber p = "55".
Proof.
  intros Hnone. unfold formatPhoneNumber. rewrite Hnone. reflexivity.
Qed.

Lemma formatPhoneNumber_no_digits_witness :
  formatPhoneNumber EmptyString = "55".
Proof.
  apply (formatPhoneNumber_no_digits EmptyString). reflexivity.
Defined.

End PhoneNormalizer.

(* ================================================================== *)
(** ** The Cloud-API dispatcher *)

Section CloudDispatcher.
Import Js Eff CloudApi.

Lemma isConfigured_false (s : Service) :
  accessToken s = EmptyString \/ phoneNumberId s = EmptyString ->
  isConfigured s = false.
Proof.
  unfold isConfigured. intros [H|H]; rewrite H; simpl.
  - reflexivity.
  - apply andb_false_r.
Qed.

Lemma sendMessage_unconfigured axios (w : World Service Call) request :
  isConfigured (this w) = false ->
  sendMessage axios request w
  = (Returned
       {| success := false;
          messageId := None;
          error := Some "WhatsApp Cloud API não está configurada. Verifique as variáveis de ambiente." |},
     w).
Proof.
  intros H. unfold sendMessage, bind, getThis. rewrite H. reflexivity.
Qed.

Lemma sendTemplateMessage_unconfigured axios (w : World Service Call)
    phone template lang params :
  isConfigured (this w) = false ->
  sendTemplateMessage axios phone template lang params w
  = (Returned
       {| success := false;
          messageId := None;
          error := Some "WhatsApp Cloud API não está configurada." |},
     w).
Proof.
  intros H. unfold sendTemplateMessage, bind, getThis. rewrite H. reflexivity.
Qed.

Ltac run_service :=
  unfold sendMessage, sendTemplateMessage, firstMessageId, bind, getThis,
    tryCatch, await, ret, throw, messagesUrl, requestHeaders;
  cbn [negb fst snd this calls].



Example sendMessage_provider_error :
  sendMessage
    (fun _ _ => inl {| err_message := Some "Request failed with status code 400";
                       err_response_error :=
                         Some {| pe_message := Some "Invalid parameter";
                                 pe_code := Some "100" |} |})
    Sample.hi {| this := Sample.cloud; calls := [] |}
  = (Returned {| success := false;
                 messageId := None;
                 error := Some "WhatsApp API Error: Invalid parameter (Code: 100)" |},
     snd (sendMessage Sample.accepting Sample.hi {| this := Sample.cloud; calls := [] |})).
Proof. reflexivity. Qed.

Lemma resultShape_failure (e : option string) :
  e <> None ->
  Spec.resultShape {| success := false; messageId := None; error := e |}.
Proof.
  intros He. split; cbn; [discriminate|]. intros _. split; [exact He|reflexivity].
Qed.

Lemma resultShape_success (sent : option string) :
  Spec.resultShape {| success := true; messageId := sent; error := None |}.
Proof. split; cbn; [reflexivity|discriminate]. Qed.

(** Whatever answer or rejection the transport gives, [sendMessage]
    returns, and a success without message id comes from an answer whose
    first message has none. *)
Lemma sendMessage_shape axios (w : World Service Call) request :
  exists r,
    fst (sendMessage axios request w) = Returned r
    /\ Spec.resultShape r
    /\ (success r = true -> messageId r = None ->
        exists made sent ms,
          axios made sent = inr {| messages := {| id := None |} :: ms |}).
Proof.
  run_service.
  destruct (isConfigured (this w)); cbn [negb].
  2: { eexists; split; [reflexivity|]. split; [|discriminate].
       apply resultShape_failure. discriminate. }
  match goal with
  | |- context [axios (calls w) ?c] =>
      destruct (axios (calls w) c) as [e|[[|[sent] ms]]] eqn:Hsettled
  end; eexists; (split; [reflexivity|]).
  - split; [apply resultShape_failure|]; discriminate.
  - split; [apply resultShape_failure|]; discriminate.
  - split; [apply resultShape_success|]. cbn. intros _ ->. eauto.
Qed.



End CloudDispatcher.

(* ================================================================== *)
(** ** The session dispatcher: sending *)

Section SessionDispatcher.
Import Js Eff Session.

Ltac run_session :=
  unfold sendMessage, disconnect, bind, getThis, tryCatch, await, ret, throw,
    modifyThis;
  cbn [negb fst snd this calls].

Lemma sendMessage_not_ready provider (w : World Service Call) request :
  client (this w) = None \/ isReady (this w) = false ->
  sendMessage provider request w
  = (Returned
       {| success := false;
          messageId := None;
          error := Some "WhatsApp não está conectado. Inicialize o cliente primeiro." |},
     w).
Proof.
  intros H. run_session.
  destruct H as [H|H]; rewrite H; [reflexivity|].
  destruct (client (this w)); reflexivity.
Qed.

Lemma orElse_default (a : option string) (d : string) :
  orElse a (Some d) <> None.
Proof. unfold orElse. destruct a as [[|c m]|]; cbn; discriminate. Qed.

(** Case analysis on everything the provider can answer along the way. *)
Ltac provider_cases :=
  repeat (match goal with
          | |- context [match client ?s with _ => _ end] =>
              destruct (client s) eqn:?
          | |- context [if isReady ?s then _ else _] =>
              destruct (isReady s) eqn:?
          | |- context [match getNumberId ?p ?h ?c ?n with _ => _ end] =>
              destruct (getNumberId p h c n) as [?|[[[|? ?]]|]]
          | |- context [match mediaUrl ?r with _ => _ end] =>
              destruct (mediaUrl r) as [[|? ?]|]
          | |- context [match fromUrl ?p ?h ?u with _ => _ end] =>
              destruct (fromUrl p h u)
          | |- context [match clientSendMessage ?p ?h ?c ?i ?x ?o with _ => _ end] =>
              destruct (clientSendMessage p h c i x o) as [?|[?]] eqn:?
          end; cbn).

(** Whatever answer or rejection the provider gives, the session
    [sendMessage] returns and leaves the fields of the service alone; a
    success without message id comes from an acknowledgement that has
    none. *)
Lemma session_sendMessage_shape provider (w : World Service Call) request :
  exists r,
    fst (sendMessage provider request w) = Returned r
    /\ this (snd (sendMessage provider request w)) = this w
    /\ Spec.resultShape r
    /\ (success r = true -> messageId r = None ->
        exists made c chat sent options,
          clientSendMessage provider made c chat sent options
          = inr {| id_serialized := None |}).
Proof.
  run_session. provider_cases;
    (eexists; split; [reflexivity|]; split; [reflexivity|]);
    (split;
     [ first [ apply resultShape_success
             | apply resultShape_failure;
               first [ apply orElse_default | discriminate ] ]
     | cbn; first [ discriminate | intros _ ->; do 5 eexists; eassumption ] ]).
Qed.

(** C7: for a ready dispatcher and a request as its callers pass it (a
    mediaUrl, when there is one, is not empty), [sendMessage] looks up the
    digits of the recipient phone; when the lookup answers null or an empty
    identifier it returns the number-not-registered failure and sends
    nothing; when it answers a chat identifier, a present mediaUrl is
    fetched and the media sent with the content as caption, and otherwise
    the content is sent as plain text; either way the id of the
    acknowledged message comes back in a success. *)
Theorem session_sendMessage_ready provider (w : World Service Call) request c :
  client (this w) = Some c ->
  isReady (this w) = true ->
  mediaUrl request <> Some EmptyString ->
  let number := replaceNonDigits (recipientPhone request) in
  let lookup := GetNumberId c number in
  let found := getNumberId provider (calls w) c number in
  let r := sendMessage provider request w in
  (found = inr None \/ found = inr (Some {| _serialized := EmptyString |}) ->
   r = (Returned {| success := false;
                    messageId := None;
                    error := Some ("O número " ++ recipientPhone request
                                   ++ " não está registrado no WhatsApp.") |},
        {| this := this w; calls := calls w ++ [lookup] |}))
  /\ (forall chat,
        found = inr (Some {| _serialized := chat |}) ->
        chat <> EmptyString ->
        (forall url media sent,
            mediaUrl request = Some url ->
            let fetch := MessageMediaFromUrl url in
            let options := Some {| caption := content request |} in
            let send := ClientSendMessage c chat (MediaContent media) options in
            fromUrl provider (calls w ++ [lookup]) url = inr media ->
            clientSendMessage provider (calls w ++ [lookup; fetch]) c chat
              (MediaContent media) options = inr sent ->
            r = (Returned {| success := true;
                             messageId := id_serialized sent;
                             error := None |},
                 {| this := this w; calls := calls w ++ [lookup; fetch; send] |}))
        /\ (forall sent,
              mediaUrl request = None ->
              let text := TextContent (content request) in
              let send := ClientSendMessage c chat text None in
              clientSendMessage provider (calls w ++ [lookup]) c chat text None
              = inr sent ->
              r = (Returned {| success := true;
                               messageId := id_serialized sent;
                               error := None |},
                   {| this := this w; calls := calls w ++ [lookup; send] |}))).
Proof.
  intros Hclient Hready Hmedia number lookup found r.
  subst r. run_session. rewrite Hclient, Hready.
  fold number. fold found. fold lookup.
  split.
  - intros [H|H]; rewrite H; reflexivity.
  - intros chat Hfound Hchat. rewrite Hfound. cbn.
    destruct chat as [|a chat]; [congruence|]. cbn.
    split.
    + intros url media sent Hurl. cbv zeta. intros Hfetch Hsend.
      rewrite Hurl in Hmedia |- *. destruct url as [|b url]; [congruence|]. cbn.
      rewrite Hfetch. cbn.
      rewrite <- !app_assoc. cbn [app].
      rewrite Hsend. reflexivity.
    + intros sent Hurl. cbv zeta. intros Hsend.
      rewrite Hurl; cbn; rewrite Hsend; rewrite <- !app_assoc; reflexivity.
Qed.

Lemma session_sendMessage_ready_witness :
  sendMessage Sample.healthy Sample.report
    {| this := Sample.connected; calls := [] |}
  = (Returned {| success := true;
                 messageId := Some "true_5511@c.us_3EB0";
                 error := None |},
     {| this := Sample.connected;
        calls := [ GetNumberId 0 "11999999999";
                   MessageMediaFromUrl "https://x.com/laudo.pdf";
                   ClientSendMessage 0 "11999999999@c.us"
                     (MediaContent {| mimetype := "application/pdf";
                                      data := "https://x.com/laudo.pdf" |})
                     (Some {| caption := "Laudo" |}) ] |}).
Proof.
  destruct (session_sendMessage_ready Sample.healthy
              {| this := Sample.connected; calls := [] |} Sample.report 0
              eq_refl eq_refl ltac:(discriminate)) as [_ Hfound].
  destruct (Hfound "11999999999@c.us" eq_refl ltac:(discriminate)) as [Hmedia _].
  exact (Hmedia "https://x.com/laudo.pdf" _ _ eq_refl eq_refl eq_refl).
Defined.

Lemma digits_differ_from_formatPhoneNumber (phone : string) :
  (String.length (replaceNonDigits phone) <= 11)%nat ->
  replaceNonDigits phone <> CloudApi.formatPhoneNumber phone.
Proof.
  intros Hlen Heq. apply (f_equal String.length) in Heq.
  unfold CloudApi.formatPhoneNumber in Heq.
  set (d := replaceNonDigits phone) in *.
  rewrite startsWith_zero in Heq.
  assert (Hdrop : forall rest : string,
    (String.length rest <= 11)%nat ->
    String.length (if (String.length rest <=? 11)%nat then "55" ++ rest else rest)
    = S (S (String.length rest))).
  { intros rest Hrest. apply Nat.leb_le in Hrest. rewrite Hrest. reflexivity. }
  destruct d as [|ch rest]; [discriminate|].
  cbn [String.length] in Hlen.
  destruct ch as [[] [] [] [] [] [] [] []]; cbn [substringFrom] in Heq;
    rewrite Hdrop in Heq by (cbn [String.length]; lia);
    cbn [String.length] in Heq; lia.
Qed.

(** C10: the session dispatcher looks a number up under exactly the digits
    of the recipient phone (every lookup it makes carries them, and a
    ready dispatcher starts with that lookup): no leading zero is dropped
    and no 55 is put in front.  So whenever those digits are at most 11,
    it looks up another number than the Cloud-API normalisation of the
    same input. *)
Theorem session_lookup_digits_only provider (w : World Service Call) request :
  (exists added,
      calls (snd (sendMessage provider request w)) = (calls w ++ added)%list
      /\ (forall c number,
            In (GetNumberId c number) added ->
            number = replaceNonDigits (recipientPhone request)
            /\ list_ascii_of_string number = Spec.digitsOf (recipientPhone request))
      /\ (forall c,
            client (this w) = Some c -> isReady (this w) = true ->
            exists rest,
              added = GetNumberId c (replaceNonDigits (recipientPhone request)) :: rest))
  /\ ((String.length (replaceNonDigits (recipientPhone request)) <= 11)%nat ->
      replaceNonDigits (recipientPhone request)
      <> CloudApi.formatPhoneNumber (recipientPhone request)).
Proof.
  split; [|apply digits_differ_from_formatPhoneNumber].
  run_session. provider_cases;
    (eexists; split;
     [ first [ rewrite <- ?app_assoc; reflexivity | symmetry; apply app_nil_r ] | ]);
    (split;
     [ cbn [In app]; intros c' number Hin;
       repeat (destruct Hin as [Hin|Hin]; [try discriminate Hin|]);
       first [ contradiction
             | injection Hin as _ <-; split;
               [reflexivity|apply replaceNonDigits_filter] ]
     | intros c' Hc' Hr'; first [ congruence | discriminate
                                | eexists; cbn [app]; repeat f_equal; congruence ] ]).
Qed.

Lemma session_lookup_digits_only_witness :
  (exists rest,
      calls (snd (sendMessage Sample.healthy Sample.report
                    {| this := Sample.connected; calls := [] |}))
      = GetNumberId 0 "11999999999" :: rest)
  /\ "11999999999" <> CloudApi.formatPhoneNumber "(11) 99999-9999".
Proof.
  destruct (session_lookup_digits_only Sample.healthy
              {| this := Sample.connected; calls := [] |} Sample.report)
    as [(added & Hcalls & _ & Hfirst) Hdiffer].
  split.
  - destruct (Hfirst 0 eq_refl eq_refl) as [rest ->].
    exists rest. exact Hcalls.
  - apply Hdiffer. vm_compute. lia.
Defined.

End SessionDispatcher.

(* ================================================================== *)
(** ** The results of the dispatchers *)

Section DispatchResults.
Import Js Eff.



End DispatchResults.

(* ================================================================== *)
(** ** The session dispatcher: life cycle *)

Section Lifecycle.
Import Js Eff Session.

Ltac run_lifecycle :=
  unfold disconnect, initialize, initialize_begin, initialize_resume, newClient,
    bind, getThis, tryCatch, await, call, ret, throw, modifyThis;
  cbn [negb fst snd this calls].

(** C9, as stated, fails: when [logout] is rejected, the error reaches the
    caller with every field of the service as it was, the client
    included; [destroy] is not even attempted. *)
Lemma disconnect_keeps_state_when_logout_throws :
  disconnect Sample.logoutFails {| this := Sample.connected; calls := [] |}
  = (Thrown Sample.timeout, {| this := Sample.connected; calls := [Logout 0] |})
  /\ client Sample.connected = Some 0
  /\ isReady Sample.connected = true
  /\ phoneNumber Sample.connected = Some "5511988887777".
Proof. repeat split. Qed.

(** C9, amended: [disconnect()] does nothing when there is no client.
    Otherwise it logs the client out and destroys it, and when both
    succeed it resets client, isReady, qrCodeData and phoneNumber (and
    leaves isInitializing); when [logout] or [destroy] is rejected, the
    error is passed to the caller and the fields stay as they were. *)
Theorem disconnect_spec provider (w : World Service Call) :
  let r := disconnect provider w in
  (client (this w) = None -> r = (Returned tt, w))
  /\ (forall c,
        client (this w) = Some c ->
        (forall e,
            logout provider (calls w) c = inl e ->
            r = (Thrown e, {| this := this w; calls := calls w ++ [Logout c] |}))
        /\ (logout provider (calls w) c = inr tt ->
            (forall e,
                destroy provider (calls w ++ [Logout c]) c = inl e ->
                r = (Thrown e,
                     {| this := this w; calls := calls w ++ [Logout c; Destroy c] |}))
            /\ (destroy provider (calls w ++ [Logout c]) c = inr tt ->
                r = (Returned tt,
                     {| this := {| client := None;
                                   isInitializing := isInitializing (this w);
                                   qrCodeData := None;
                                   isReady := false;
                                   phoneNumber := None |};
                        calls := calls w ++ [Logout c; Destroy c] |})))).
Proof.
  cbv zeta. run_lifecycle. split.
  - intros ->. reflexivity.
  - intros c ->. split.
    + intros e ->. reflexivity.
    + intros ->. cbn. split.
      * intros e ->. rewrite <- app_assoc. reflexivity.
      * intros ->. rewrite <- app_assoc. reflexivity.
Qed.

Lemma disconnect_spec_witness :
  disconnect Sample.healthy {| this := Sample.connected; calls := [] |}
  = (Returned tt,
     {| this := {| client := None; isInitializing := false; qrCodeData := None;
                   isReady := false; phoneNumber := None |};
        calls := [Logout 0; Destroy 0] |}).
Proof.
  destruct (disconnect_spec Sample.healthy {| this := Sample.connected; calls := [] |})
    as [_ Hclient].
  destruct (Hclient 0 eq_refl) as [_ Hlogout].
  destruct (Hlogout eq_refl) as [_ Hdestroy].
  exact (Hdestroy eq_refl).
Defined.

Lemma clientReady_true (s : Service) :
  client s <> None /\ isReady s = true -> clientReady s = true.
Proof.
  unfold clientReady. intros [Hc Hr]. destruct (client s); [exact Hr|congruence].
Qed.

Lemma clientReady_false (s : Service) :
  client s = None \/ isReady s = false -> clientReady s = false.
Proof.
  unfold clientReady. intros [->| ->]; [reflexivity|].
  destruct (client s); reflexivity.
Qed.

Lemma initialize_begin_guarded (w : World Service Call) :
  clientReady (this w) = true \/ isInitializing (this w) = true ->
  initialize_begin w = (Returned None, w).
Proof.
  run_lifecycle. intros [->| ->]; [reflexivity|].
  destruct (clientReady (this w)); reflexivity.
Qed.

Lemma initialize_guarded provider (w : World Service Call) :
  clientReady (this w) = true \/ isInitializing (this w) = true ->
  initialize provider w = (Returned tt, w).
Proof.
  run_lifecycle. intros [->| ->]; [reflexivity|].
  destruct (clientReady (this w)); reflexivity.
Qed.

Lemma initialize_begin_open (w : World Service Call) :
  clientReady (this w) = false ->
  isInitializing (this w) = false ->
  let c := constructed (calls w) in
  initialize_begin w
  = (Returned (Some c),
     {| this := set_client (Some c) (set_isInitializing true (this w));
        calls := calls w ++ [NewClient c; ClientInitialize c] |}).
Proof.
  intros Hr Hi. run_lifecycle. rewrite Hr, Hi.
  rewrite <- app_assoc. reflexivity.
Qed.

(** The method run whole is its two halves run one after the other. *)
Lemma initialize_cut provider (w : World Service Call) :
  clientReady (this w) = false ->
  isInitializing (this w) = false ->
  let c := constructed (calls w) in
  let settled := clientInitialize provider (calls w ++ [NewClient c]) c in
  initialize provider w
  = initialize_resume settled (snd (initialize_begin w)).
Proof.
  intros Hr Hi. run_lifecycle. rewrite Hr, Hi.
  destruct (clientInitialize provider _ _) as [e|[]]; cbn;
    rewrite <- ?app_assoc; reflexivity.
Qed.

Lemma constructed_app (made more : list Call) :
  constructed (made ++ more) = constructed made + constructed more.
Proof.
  unfold constructed. rewrite filter_app, length_app. reflexivity.
Qed.

Lemma singleFlight_start : singleFlight start.
Proof. split; cbn; [lia|congruence]. Qed.

Lemma singleFlight_idle (w : World Service Call) :
  singleFlight {| world := w; inFlight := [] |}.
Proof. split; cbn; [lia|congruence]. Qed.

Lemma emitted_singleFlight (f : Service -> Service) (p p' : Process) :
  (inFlight p <> [] ->
   guarded (this (world p)) = true -> client (this (world p)) <> None ->
   guarded (f (this (world p))) = true /\ client (f (this (world p))) <> None) ->
  emitted f p = Some p' ->
  singleFlight p -> singleFlight p'.
Proof.
  unfold emitted. intros Hf Hstep [Hlen Hguard].
  destruct (0 <? _)%nat; [|discriminate].
  injection Hstep as <-. split; cbn; [exact Hlen|].
  intros Hne. destruct (Hguard Hne) as [Hg Hc]. apply Hf; assumption.
Qed.

Lemma step_singleFlight (e : Event) (p p' : Process) :
  keepsGuard e p = true ->
  step e p = Some p' ->
  singleFlight p -> singleFlight p'.
Proof.
  intros Hkeep Hstep Hinv.
  destruct e; cbn [step keepsGuard] in Hstep, Hkeep.
  - (* a call of initialize() *)
    destruct Hinv as [Hlen Hguard].
    destruct (clientReady (this (world p))) eqn:Hr.
    { rewrite initialize_begin_guarded in Hstep by (left; exact Hr).
      injection Hstep as <-. split; assumption. }
    destruct (isInitializing (this (world p))) eqn:Hi.
    { rewrite initialize_begin_guarded in Hstep by (right; exact Hi).
      injection Hstep as <-. split; assumption. }
    rewrite (initialize_begin_open _ Hr Hi) in Hstep.
    injection Hstep as <-.
    assert (Hidle : inFlight p = []).
    { destruct (inFlight p) as [|c rest] eqn:Hfl; [reflexivity|].
      assert (Hne : c :: rest <> []) by discriminate.
      destruct (Hguard Hne) as [Hg _].
      unfold guarded in Hg. rewrite Hr, Hi in Hg. discriminate. }
    rewrite Hidle. split; cbn; [lia|].
    intros _. split; [reflexivity|discriminate].
  - (* the promise of client.initialize() settles *)
    destruct (existsb (Nat.eqb c) (inFlight p)) eqn:Hin; [|discriminate].
    injection Hstep as <-.
    destruct Hinv as [Hlen _].
    destruct (inFlight p) as [|c0 [|c1 rest]]; cbn in Hlen, Hin; try discriminate; [|lia].
    rewrite orb_false_r in Hin. apply Nat.eqb_eq in Hin as ->.
    cbn. rewrite Nat.eqb_refl. apply singleFlight_idle.
  - (* qr *)
    revert Hstep Hinv. apply emitted_singleFlight. intros _ Hg Hc. split; assumption.
  - (* authenticated *)
    revert Hstep Hinv. apply emitted_singleFlight. intros _ Hg Hc. split; assumption.
  - (* ready *)
    revert Hstep Hinv. apply emitted_singleFlight. intros _ _ Hc.
    unfold on_ready, guarded, clientReady.
    destruct (client (this (world p))) as [c|] eqn:Hcl; [|congruence].
    cbn. rewrite Hcl.
    destruct info; cbn; rewrite Hcl; split; (reflexivity || discriminate).
  - (* disconnected *)
    revert Hstep Hinv. apply emitted_singleFlight. intros Hne.
    destruct (inFlight p); [congruence|discriminate].
  - (* auth_failure *)
    revert Hstep Hinv. apply emitted_singleFlight. intros Hne.
    destruct (inFlight p); [congruence|discriminate].
  - (* the reset of disconnect() *)
    revert Hstep Hinv. apply emitted_singleFlight. intros Hne.
    destruct (inFlight p); [congruence|discriminate].
Qed.

Lemma run_singleFlight (es : list Event) (p p' : Process) :
  run keepsGuard es p = Some p' ->
  singleFlight p -> singleFlight p'.
Proof.
  revert p. induction es as [|e rest IH]; intros p Hrun Hinv; cbn in Hrun.
  - injection Hrun as <-. exact Hinv.
  - destruct (keepsGuard e p) eqn:Hkeep; [|discriminate].
    destruct (step e p) as [q|] eqn:Hstep; [|discriminate].
    apply (IH q Hrun). exact (step_singleFlight e p q Hkeep Hstep Hinv).
Qed.

(** C8, as stated, fails: an auth_failure callback that runs while the
    first call is still in flight clears isInitializing, and the next
    call constructs a second client while the first [initialize()] promise
    is pending. *)
Lemma initialize_twice_in_flight_after_auth_failure :
  exists p,
    run anyTurn [CallsInitialize; EmitsAuthFailure "LOGOUT"; CallsInitialize] start
    = Some p
    /\ inFlight p = [1; 0]
    /\ constructed (calls (world p)) = 2
    /\ ~ (List.length (inFlight p) <= 1)%nat.
Proof.
  eexists. split; [vm_compute; reflexivity|].
  cbn. repeat split. lia.
Qed.

(** C8, amended: [initialize()] is a no-op when the client exists and
    isReady is true, and when isInitializing is true.  So of two calls in
    a row on a service that is neither, the first constructs exactly one
    client and the second returns at once, constructing none.  And two
    calls are never in flight together as long as no auth_failure or
    disconnected callback and no reset by [disconnect()] runs while one
    is in flight. *)
Theorem initialize_single_flight :
  (forall provider (w : World Service Call),
      (client (this w) <> None /\ isReady (this w) = true)
      \/ isInitializing (this w) = true ->
      initialize provider w = (Returned tt, w)
      /\ initialize_begin w = (Returned None, w))
  /\ (forall p,
        client (this (world p)) = None \/ isReady (this (world p)) = false ->
        isInitializing (this (world p)) = false ->
        exists p',
          run anyTurn [CallsInitialize; CallsInitialize] p = Some p'
          /\ constructed (calls (world p')) = S (constructed (calls (world p)))
          /\ inFlight p' = constructed (calls (world p)) :: inFlight p)
  /\ (forall es p,
        run keepsGuard es start = Some p ->
        (List.length (inFlight p) <= 1)%nat).
Proof.
  split; [|split].
  - intros provider w H.
    assert (Hg : clientReady (this w) = true \/ isInitializing (this w) = true).
    { destruct H as [H|H]; [left; apply clientReady_true; exact H|right; exact H]. }
    split; [apply initialize_guarded|apply initialize_begin_guarded]; exact Hg.
  - intros p Hr Hi. apply clientReady_false in Hr.
    cbn [run anyTurn step].
    rewrite (initialize_begin_open _ Hr Hi). cbn [world inFlight].
    rewrite initialize_begin_guarded by (right; reflexivity).
    eexists. split; [reflexivity|]. cbn [world inFlight calls].
    split; [|reflexivity].
    rewrite constructed_app. cbn. lia.
  - intros es p Hrun.
    exact (proj1 (run_singleFlight es start p Hrun singleFlight_start)).
Qed.

Lemma initialize_single_flight_witness :
  (exists p,
      run anyTurn [CallsInitialize; CallsInitialize] start = Some p
      /\ constructed (calls (world p)) = 1
      /\ inFlight p = [0])
  /\ (List.length
        (inFlight
           {| world :=
                {| this := {| client := Some 0; isInitializing := false;
                              qrCodeData := None; isReady := true;
                              phoneNumber := Some "5511988887777" |};
                   calls := [NewClient 0; ClientInitialize 0] |};
              inFlight := [0] |}) <= 1)%nat.
Proof.
  destruct initialize_single_flight as (_ & Htwice & Hnever).
  split.
  - exact (Htwice start (or_introl eq_refl) eq_refl).
  - apply (Hnever [CallsInitialize; EmitsQr "2@qr"; EmitsAuthenticated;
                   EmitsReady (Some "5511988887777"); CallsInitialize]).
    reflexivity.
Defined.

End Lifecycle.

(* ================================================================== *)
(** ** Dispatchers that cannot send *)

Section Guards.
Import Js Eff.

(** C5: with the access token or the phone-number id empty, the Cloud-API
    [sendMessage] and [sendTemplateMessage] return the configuration
    failure, and with no client or isReady false the session [sendMessage]
    returns the not-connected failure; each returns (nothing is thrown),
    makes no provider call and leaves the dispatcher as it was. *)
Theorem refuses_when_unconfigured_or_unready :
  (forall axios (w : World CloudApi.Service CloudApi.Call) request,
      CloudApi.accessToken (this w) = EmptyString
      \/ CloudApi.phoneNumberId (this w) = EmptyString ->
      CloudApi.sendMessage axios request w
      = (Returned
           {| success := false;
              messageId := None;
              error := Some "WhatsApp Cloud API não está configurada. Verifique as variáveis de ambiente." |},
         w))
  /\ (forall axios (w : World CloudApi.Service CloudApi.Call)
            phone template lang params,
        CloudApi.accessToken (this w) = EmptyString
        \/ CloudApi.phoneNumberId (this w) = EmptyString ->
        CloudApi.sendTemplateMessage axios phone template lang params w
        = (Returned
             {| success := false;
                messageId := None;
                error := Some "WhatsApp Cloud API não está configurada." |},
           w))
  /\ (forall provider (w : World Session.Service Session.Call) request,
        Session.client (this w) = None \/ Session.isReady (this w) = false ->
        Session.sendMessage provider request w
        = (Returned
             {| success := false;
                messageId := None;
                error := Some "WhatsApp não está conectado. Inicialize o cliente primeiro." |},
           w)).
Proof.
  split; [|split].
  - intros axios w request H.
    apply sendMessage_unconfigured, isConfigured_false, H.
  - intros axios w phone template lang params H.
    apply sendTemplateMessage_unconfigured, isConfigured_false, H.
  - intros provider w request H.
    apply sendMessage_not_ready, H.
Qed.

Lemma refuses_when_unconfigured_or_unready_witness :
  fst (CloudApi.sendMessage Sample.accepting Sample.hi
         {| this := Sample.cloudUnset; calls := [] |})
  = Returned
      {| success := false;
         messageId := None;
         error := Some "WhatsApp Cloud API não está configurada. Verifique as variáveis de ambiente." |}
  /\ calls (snd (CloudApi.sendTemplateMessage Sample.accepting "11999999999"
                   "hello_world" None None
                   {| this := Sample.cloudUnset; calls := [] |})) = []
  /\ snd (Session.sendMessage Sample.healthy Sample.report
            {| this := Session.fresh; calls := [] |})
     = {| this := Session.fresh; calls := [] |}.
Proof.
  destruct refuses_when_unconfigured_or_unready as (Hsend & Htemplate & Hsession).
  split; [|split].
  - rewrite (Hsend Sample.accepting {| this := Sample.cloudUnset; calls := [] |}
               Sample.hi (or_introl eq_refl)).
    reflexivity.
  - rewrite (Htemplate Sample.accepting {| this := Sample.cloudUnset; calls := [] |}
               "11999999999" "hello_world" None None (or_introl eq_refl)).
    reflexivity.
  - rewrite (Hsession Sample.healthy {| this := Session.fresh; calls := [] |}
               Sample.report (or_introl eq_refl)).
    reflexivity.
Defined.

End Guards.

(* ================================================================== *)
(** ** More on the phone normalisation *)

Section CanonicalPhones.
Import Js CloudApi.

Lemma length_append_string (a b : string) :
  String.length (a ++ b) = String.length a + String.length b.
Proof. induction a as [|c a IH]; simpl; [reflexivity|]. rewrite IH. reflexivity. Qed.

Lemma allDigits_substringFrom (n : nat) (s : string) :
  allDigits s = true -> allDigits (substringFrom n s) = true.
Proof.
  revert s. induction n as [|n IH]; intros s H; [exact H|].
  destruct s as [|c rest]; [reflexivity|].
  simpl in H. apply andb_true_iff in H as [_ H]. simpl. apply IH, H.
Qed.

(** The digits left once one leading zero is gone. *)
Lemma length_without_zero (d : string) :
  String.length (if startsWith d "0" then substringFrom 1 d else d)
  = if startsWith d "0" then pred (String.length d) else String.length d.
Proof.
  rewrite startsWith_zero. destruct d as [|c rest]; [reflexivity|].
  destruct c as [[] [] [] [] [] [] [] []]; reflexivity.
Qed.

Lemma startsWith_zero_nonempty (d : string) :
  startsWith d "0" = true -> (1 <= String.length d)%nat.
Proof. destruct d; simpl; [discriminate|lia]. Qed.

(** X1: what [formatPhoneNumber] returns holds digits only, at least two
    of them, and either starts with the country code 55 or is more than 11
    digits long. *)
Theorem formatPhoneNumber_shape (p : string) :
  allDigits (formatPhoneNumber p) = true
  /\ (2 <= String.length (formatPhoneNumber p))%nat
  /\ (startsWith (formatPhoneNumber p) "55" = true
      \/ (11 < String.length (formatPhoneNumber p))%nat).
Proof.
  split; [apply formatPhoneNumber_allDigits|].
  unfold formatPhoneNumber.
  set (d := if startsWith (replaceNonDigits p) "0"
            then substringFrom 1 (replaceNonDigits p) else replaceNonDigits p).
  destruct (String.length d <=? 11)%nat eqn:Hlen.
  - split; [cbn; lia|]. left. reflexivity.
  - apply Nat.leb_gt in Hlen. split; [lia|]. right. exact Hlen.
Qed.

(** X2: the strings [formatPhoneNumber] leaves as they are, are exactly the
    digit strings of more than 11 digits that do not begin with 0. *)
Theorem formatPhoneNumber_fixed_iff (p : string) :
  formatPhoneNumber p = p
  <-> allDigits p = true /\ startsWith p "0" = false /\ (11 < String.length p)%nat.
Proof.
  split.
  - intros Hfix.
    assert (Hd : allDigits p = true).
    { rewrite <- Hfix. apply formatPhoneNumber_allDigits. }
    split; [exact Hd|].
    unfold formatPhoneNumber in Hfix.
    rewrite (replaceNonDigits_fixes_digits p Hd) in Hfix.
    pose proof (length_without_zero p) as Hlen.
    pose proof (startsWith_zero_nonempty p) as Hne.
    apply (f_equal String.length) in Hfix.
    destruct (String.length (if startsWith p "0" then substringFrom 1 p else p)
              <=? 11)%nat eqn:Hshort.
    + rewrite length_append_string in Hfix. cbn [String.length] in Hfix.
      destruct (startsWith p "0"); [specialize (Hne eq_refl)|]; lia.
    + apply Nat.leb_gt in Hshort.
      destruct (startsWith p "0"); [specialize (Hne eq_refl); lia|].
      split; [reflexivity|lia].
  - intros (Hd & Hzero & Hlen).
    unfold formatPhoneNumber.
    rewrite (replaceNonDigits_fixes_digits p Hd), Hzero.
    apply Nat.leb_gt in Hlen. rewrite Hlen. reflexivity.
Qed.

(** X3: one zero written in front of a number whose digits do not begin
    with 0 makes no difference to the result. *)
Theorem formatPhoneNumber_trunk_zero (p : string) :
  startsWith (replaceNonDigits p) "0" = false ->
  formatPhoneNumber ("0" ++ p) = formatPhoneNumber p.
Proof.
  intros Hzero. unfold formatPhoneNumber.
  change (replaceNonDigits ("0" ++ p)) with (String "0" (replaceNonDigits p)).
  rewrite Hzero. reflexivity.
Qed.

Lemma formatPhoneNumber_trunk_zero_witness :
  formatPhoneNumber ("0" ++ "11 99999-9999") = formatPhoneNumber "11 99999-9999".
Proof. apply (formatPhoneNumber_trunk_zero "11 99999-9999"). reflexivity. Defined.

End CanonicalPhones.

(* ================================================================== *)
(** ** The status of the Cloud-API service *)

Section CloudStatusFacts.
Import Js CloudApi.

Lemma truthy_substringTo (n : nat) (s : string) :
  truthy (substringTo (S n) s) = truthy s.
Proof.
  destruct s as [|c rest]; [reflexivity|].
  cbn [substringTo]. destruct (twoUnits c); [|reflexivity].
  destruct n as [|n]; [|reflexivity].
  destruct rest as [|b1 [|b2 [|b3 rest]]]; reflexivity.
Qed.

Lemma ascii_one_unit (c : ascii) :
  (nat_of_ascii c <? 128)%nat = true ->
  twoUnits c = false /\ continuationBytes c = 0.
Proof.
  unfold twoUnits, continuationBytes. intros H. apply Nat.ltb_lt in H.
  split.
  - apply Nat.leb_gt. lia.
  - assert (Hlt : (nat_of_ascii c <? 192)%nat = true) by (apply Nat.ltb_lt; lia).
    cbv zeta. rewrite Hlt. reflexivity.
Qed.

Lemma length_substringTo_ascii (n : nat) (s : string) :
  allAscii s = true -> (String.length (substringTo n s) <= n)%nat.
Proof.
  revert s. induction n as [|n IH]; intros s Hs; [cbn; lia|].
  destruct s as [|c rest]; [cbn; lia|].
  cbn [allAscii] in Hs. apply andb_true_iff in Hs as [Hc Hrest].
  destruct (ascii_one_unit c Hc) as [Htwo Hcont].
  cbn [substringTo]. rewrite Htwo, Hcont.
  change (takeBytes 0 rest) with EmptyString.
  change (dropBytes 0 rest) with rest.
  cbn [append String.length]. specialize (IH rest Hrest). lia.
Qed.

(** X4: the status shows of the service only whether it is configured and
    the first eight UTF-16 code units of the phone-number id: two services
    that agree on these have the same status, whatever their tokens, URLs
    and the rest of their ids. *)
Theorem getStatus_shows_prefix_only (s1 s2 : Service) :
  truthy (accessToken s1) = truthy (accessToken s2) ->
  substringTo 8 (phoneNumberId s1) = substringTo 8 (phoneNumberId s2) ->
  getStatus s1 = getStatus s2.
Proof.
  intros Htoken Hprefix. unfold getStatus, isConfigured.
  assert (Hid : truthy (phoneNumberId s1) = truthy (phoneNumberId s2)).
  { rewrite <- (truthy_substringTo 7 (phoneNumberId s1)),
            <- (truthy_substringTo 7 (phoneNumberId s2)), Hprefix.
    reflexivity. }
  rewrite Htoken, Hid, Hprefix. reflexivity.
Qed.

Lemma getStatus_shows_prefix_only_witness :
  getStatus {| apiUrl := "https://graph.facebook.com/v18.0";
               accessToken := "EAAG-first";
               phoneNumberId := "éééé12345678901";
               businessAccountId := "1" |}
  = getStatus {| apiUrl := "https://graph.facebook.com/v19.0";
                 accessToken := "EAAG-second";
                 phoneNumberId := "éééé12340000000";
                 businessAccountId := "2" |}.
Proof. apply getStatus_shows_prefix_only; reflexivity. Defined.

Example getStatus_counts_code_units :
  Status.phoneNumberId
    (getStatus {| apiUrl := EmptyString; accessToken := "t";
                  phoneNumberId := "éééé1234";
                  businessAccountId := EmptyString |})
  = "éééé1234..."
  /\ Status.phoneNumberId
       (getStatus {| apiUrl := EmptyString; accessToken := "t";
                     phoneNumberId := "éééé9999";
                     businessAccountId := EmptyString |})
     = "éééé9999...".
Proof. split; reflexivity. Qed.

(** X5: the id in the status reads not_set exactly when the service has no
    phone-number id; for an id of ASCII characters it is at most 11
    characters long. *)
Theorem getStatus_not_set_iff (s : Service) :
  (Status.phoneNumberId (getStatus s) = "not_set"
   <-> phoneNumberId s = EmptyString)
  /\ (allAscii (phoneNumberId s) = true ->
      (String.length (Status.phoneNumberId (getStatus s)) <= 11)%nat).
Proof.
  unfold getStatus. cbn [Status.phoneNumberId].
  destruct (phoneNumberId s) as [|c rest] eqn:Hid; cbn [truthy].
  - split; [split; reflexivity|]. intros _. cbn. lia.
  - split.
    + split; [|discriminate].
      intros Hshown.
      assert (Hfour : String.length (substringTo 8 (String c rest)) = 4).
      { apply (f_equal String.length) in Hshown.
        rewrite length_append_string in Hshown. cbn [String.length] in Hshown. lia. }
      destruct (substringTo 8 (String c rest)) as [|a1 [|a2 [|a3 [|a4 [|a5 y]]]]];
        cbn in Hfour; try discriminate Hfour.
      cbn in Hshown. discriminate Hshown.
    + intros Hascii.
      pose proof (length_substringTo_ascii 8 (String c rest) Hascii) as Hlen.
      rewrite length_append_string. cbn [String.length]. lia.
Qed.

End CloudStatusFacts.

(* ================================================================== *)
(** ** More on the Cloud-API dispatcher *)

Section CloudCalls.
Import Js Eff CloudApi CloudContracts.

Ltac run_cloud :=
  unfold sendMessage, sendTemplateMessage, firstMessageId, bind, getThis,
    tryCatch, await, ret, throw, messagesUrl, requestHeaders;
  cbn [negb fst snd this calls].

(** X6: a configured [sendTemplateMessage] makes exactly one POST to
    <apiUrl>/<phoneNumberId>/messages with the bearer token and leaves the
    service alone.  The payload is of type template, addressed to the
    normalised phone, in the given language or pt_BR when none is given;
    it has no components when the parameters are missing or empty, and
    otherwise one body component whose text parameters are the given ones
    in the same order.  An answer with a first message maps to a success
    with that message's id, a rejection to a failure with the provider's
    message or else the exception's. *)
Theorem sendTemplateMessage_configured axios (w : World Service Call)
    phone template lang params :
  isConfigured (this w) = true ->
  exists components,
    let sent :=
      Post (apiUrl (this w) ++ "/" ++ phoneNumberId (this w) ++ "/messages")
        (TemplatePayload
           {| TemplateMessage.messaging_product := "whatsapp";
              TemplateMessage.to := formatPhoneNumber phone;
              TemplateMessage.type := "template";
              TemplateMessage.template :=
                {| TemplateMessage.name := template;
                   TemplateMessage.language :=
                     {| TemplateMessage.code :=
                          match lang with Some l => l | None => "pt_BR" end |};
                   TemplateMessage.components := components |} |})
        {| Authorization := "Bearer " ++ accessToken (this w);
           Content_Type := "application/json" |} in
    let r := sendTemplateMessage axios phone template lang params w in
    snd r = {| this := this w; calls := calls w ++ [sent] |}
    /\ (params = None \/ params = Some [] -> components = None)
    /\ (forall ps, params = Some ps -> ps <> [] ->
        exists c,
          components = Some [c]
          /\ TemplateMessage.ctype c = "body"
          /\ map TemplateMessage.ptext (TemplateMessage.parameters c) = ps
          /\ Forall (fun q => TemplateMessage.ptype q = "text")
               (TemplateMessage.parameters c))
    /\ (forall m ms, axios (calls w) sent = inr {| messages := m :: ms |} ->
        fst r = Returned {| success := true; messageId := id m; error := None |})
    /\ (forall e, axios (calls w) sent = inl e ->
        fst r = Returned
                  {| success := false;
                     messageId := None;
                     error := orElse
                                match err_response_error e with
                                | Some pe => pe_message pe
                                | None => None
                                end
                                (err_message e) |}).
Proof.
  intros Hconf.
  exists (match params with
          | Some (first :: others) =>
              Some [ {| TemplateMessage.ctype := "body";
                        TemplateMessage.parameters :=
                          map (fun param =>
                                 {| TemplateMessage.ptype := "text";
                                    TemplateMessage.ptext := param |})
                            (first :: others) |} ]
          | _ => None
          end).
  cbv zeta. run_cloud. rewrite Hconf. cbn [negb].
  match goal with
  | |- context [axios (calls w) ?c] => set (sent := c)
  end.
  split; [|split; [|split; [|split]]].
  - destruct (axios (calls w) sent) as [e|[[|m ms]]]; reflexivity.
  - intros [->| ->]; reflexivity.
  - intros ps -> Hne. destruct ps as [|q ps]; [congruence|].
    eexists. split; [reflexivity|]. split; [reflexivity|].
    cbn [TemplateMessage.parameters]. split.
    + rewrite map_map. cbn [TemplateMessage.ptext]. apply map_id.
    + apply Forall_forall. intros x Hx. apply in_map_iff in Hx as (y & <- & _).
      reflexivity.
  - intros m ms H. rewrite H. reflexivity.
  - intros e H. rewrite H. reflexivity.
Qed.

Lemma sendTemplateMessage_configured_witness :
  calls (snd (sendTemplateMessage Sample.accepting "(11) 99999-9999" "lembrete"
                None (Some ["Rex"; "14h"]) {| this := Sample.cloud; calls := [] |}))
  = [ Post "https://graph.facebook.com/v18.0/1234567890/messages"
        (TemplatePayload
           {| TemplateMessage.messaging_product := "whatsapp";
              TemplateMessage.to := "5511999999999";
              TemplateMessage.type := "template";
              TemplateMessage.template :=
                {| TemplateMessage.name := "lembrete";
                   TemplateMessage.language := {| TemplateMessage.code := "pt_BR" |};
                   TemplateMessage.components :=
                     Some [ {| TemplateMessage.ctype := "body";
                               TemplateMessage.parameters :=
                                 [ {| TemplateMessage.ptype := "text";
                                      TemplateMessage.ptext := "Rex" |};
                                   {| TemplateMessage.ptype := "text";
                                      TemplateMessage.ptext := "14h" |} ] |} ] |} |})
        {| Authorization := "Bearer token"; Content_Type := "application/json" |} ].
Proof.
  destruct (sendTemplateMessage_configured Sample.accepting
              {| this := Sample.cloud; calls := [] |}
              "(11) 99999-9999" "lembrete" None (Some ["Rex"; "14h"]) eq_refl)
    as (components & Hworld & _ & Hparams & _).
  cbv zeta in Hworld. rewrite Hworld.
  destruct (Hparams ["Rex"; "14h"] eq_refl ltac:(discriminate))
    as ([kind given] & -> & Hkind & Htexts & Hkinds).
  cbn in Hkind, Htexts, Hkinds. subst kind.
  destruct given as [|[k1 t1] [|[k2 t2] [|? ?]]]; try discriminate Htexts.
  injection Htexts as -> ->.
  apply Forall_cons_iff in Hkinds as [Hk1 Hkinds].
  apply Forall_cons_iff in Hkinds as [Hk2 _].
  cbn in Hk1, Hk2. subst k1 k2. reflexivity.
Defined.

(** X7: for every answer of the transport that is a response with a list
    of messages (each with or without an id) or a rejection with an error
    object, [sendMessage] and [sendTemplateMessage] return (they do not
    throw), leave the service as it was, and make at most one call: a POST
    to the messages endpoint under the bearer token, and only when the
    service is configured.  What [sendMessage] returns is a success
    without error or a failure with an error and without message id. *)
Theorem cloud_methods_post_once axios (w : World Service Call)
    request phone template lang params :
  (exists r added,
      sendMessage axios request w
      = (Returned r, {| this := this w; calls := calls w ++ added |})
      /\ Spec.resultShape r
      /\ authorised (this w) added)
  /\ (exists r added,
        sendTemplateMessage axios phone template lang params w
        = (Returned r, {| this := this w; calls := calls w ++ added |})
        /\ authorised (this w) added).
Proof.
  assert (Hidle : forall w : World Service Call,
             w = {| this := this w; calls := calls w ++ [] |}).
  { intros [s made]. cbn. rewrite app_nil_r. reflexivity. }
  unfold authorised. split; run_cloud;
    (destruct (isConfigured (this w)) eqn:Hconf; cbn [negb];
     [ match goal with
       | |- context [axios (calls w) ?c] =>
           destruct (axios (calls w) c) as [e|[[|m ms]]]
       end;
       do 2 eexists; (split; [reflexivity|]);
       try (split;
            [ first [ apply resultShape_success
                    | apply resultShape_failure; discriminate ] | ]);
       right; (split; [reflexivity|]); eexists; reflexivity
     | do 2 eexists; split; [f_equal; apply Hidle|];
       try (split; [apply resultShape_failure; discriminate|]);
       left; reflexivity ]).
Qed.

End CloudCalls.

(* ================================================================== *)
(** ** More on sending through the session *)

Section SessionCalls.
Import Js Eff Session SessionContracts.

Ltac run_send :=
  unfold sendMessage, bind, getThis, tryCatch, await, ret, throw;
  cbn [negb fst snd this calls].

Ltac answers :=
  repeat (match goal with
          | |- context [match client ?s with _ => _ end] =>
              destruct (client s) eqn:?
          | |- context [if isReady ?s then _ else _] =>
              destruct (isReady s) eqn:?
          | |- context [match getNumberId ?p ?h ?c ?n with _ => _ end] =>
              destruct (getNumberId p h c n) as [?|[[[|? ?]]|]]
          | |- context [match mediaUrl ?r with _ => _ end] =>
              destruct (mediaUrl r) as [[|? ?]|]
          | |- context [match fromUrl ?p ?h ?u with _ => _ end] =>
              destruct (fromUrl p h u)
          | |- context [match clientSendMessage ?p ?h ?c ?i ?x ?o with _ => _ end] =>
              destruct (clientSendMessage p h c i x o)
          end; cbn).

(** X8: nothing is sent when the lookup or the media download is rejected:
    the result is a failure with the exception's message (or the default
    one), the rejected call is the last call made, and a failed download is
    not replaced by a plain text message. *)
Theorem session_sendMessage_rejected provider (w : World Service Call) request c :
  client (this w) = Some c ->
  isReady (this w) = true ->
  let number := replaceNonDigits (recipientPhone request) in
  let lookup := GetNumberId c number in
  let r := sendMessage provider request w in
  (forall e,
      getNumberId provider (calls w) c number = inl e ->
      r = (Returned (rejected e), {| this := this w; calls := calls w ++ [lookup] |}))
  /\ (forall chat url e,
        getNumberId provider (calls w) c number = inr (Some {| _serialized := chat |}) ->
        chat <> EmptyString ->
        mediaUrl request = Some url ->
        url <> EmptyString ->
        fromUrl provider (calls w ++ [lookup]) url = inl e ->
        r = (Returned (rejected e),
             {| this := this w;
                calls := calls w ++ [lookup; MessageMediaFromUrl url] |})).
Proof.
  intros Hclient Hready. cbv zeta. run_send. rewrite Hclient, Hready. split.
  - intros e ->. reflexivity.
  - intros chat url e -> Hchat -> Hurl Hfetch.
    destruct chat as [|a chat]; [congruence|].
    destruct url as [|b url]; [congruence|].
    cbn. rewrite Hfetch. cbn. rewrite <- app_assoc. reflexivity.
Qed.

Lemma session_sendMessage_rejected_witness :
  sendMessage Sample.downloadFails Sample.report
    {| this := Sample.connected; calls := [] |}
  = (Returned {| success := false;
                 messageId := None;
                 error := Some "Protocol error: session closed" |},
     {| this := Sample.connected;
        calls := [ GetNumberId 0 "11999999999";
                   MessageMediaFromUrl "https://x.com/laudo.pdf" ] |}).
Proof.
  refine (proj2 (session_sendMessage_rejected Sample.downloadFails
                   {| this := Sample.connected; calls := [] |} Sample.report 0
                   eq_refl eq_refl)
            "11999999999@c.us" "https://x.com/laudo.pdf" Sample.timeout
            eq_refl _ eq_refl _ eq_refl); discriminate.
Defined.

(** X9: for every answer of the provider that is a value of the library's
    types (a contact id or null, a media object, a message with or without
    id) or a rejection with an error object, the session [sendMessage],
    run without another handler in between, returns (it does not throw) a
    success without error or a failure with an error and without message
    id, leaves the service as it was, and makes at most three calls, each
    a lookup, a media download or a send on the current client, and at
    most one of them a send: it never constructs, initialises, logs out or
    destroys a client, and never sends twice. *)
Theorem session_sendMessage_calls provider (w : World Service Call) request :
  exists r added,
    sendMessage provider request w
    = (Returned r, {| this := this w; calls := calls w ++ added |})
    /\ Spec.resultShape r
    /\ (List.length added <= 3)%nat
    /\ (List.length (filter isSend added) <= 1)%nat
    /\ Forall (sendingCall (client (this w))) added.
Proof.
  assert (Hidle : forall w : World Service Call,
             w = {| this := this w; calls := calls w ++ [] |}).
  { intros [s made]. cbn. rewrite app_nil_r. reflexivity. }
  run_send. answers;
    (do 2 eexists; split;
     [ first [ rewrite <- ?app_assoc; reflexivity | f_equal; apply Hidle ] | ]);
    (split;
     [ first [ apply resultShape_success
             | apply resultShape_failure;
               first [ apply orElse_default | discriminate ] ] | ]);
    cbn [app List.length filter isSend];
    (split; [lia|]); (split; [lia|]);
    repeat constructor; cbn; congruence.
Qed.

End SessionCalls.

(* ================================================================== *)
(** ** More on the life cycle of the session *)

Section LifecycleOrder.
Import Js Eff Session SessionContracts.

Ltac run_life :=
  unfold disconnect, initialize, initialize_begin, initialize_resume, newClient,
    bind, getThis, tryCatch, await, call, ret, throw, modifyThis;
  cbn [negb fst snd this calls].

(** Whatever the provider answers, [disconnect()] leaves isInitializing as
    it found it. *)
Lemma disconnect_keeps_isInitializing provider (w : World Service Call) :
  isInitializing (this (snd (disconnect provider w))) = isInitializing (this w).
Proof.
  run_life. destruct (client (this w)) as [c|]; [|reflexivity].
  destruct (logout provider (calls w) c) as [e|[]]; cbn; [reflexivity|].
  destruct (destroy provider _ c) as [e|[]]; reflexivity.
Qed.

Lemma initialize_resolved provider (w : World Service Call) :
  clientReady (this w) = false ->
  isInitializing (this w) = false ->
  let c := constructed (calls w) in
  clientInitialize provider (calls w ++ [NewClient c]) c = inr tt ->
  initialize provider w
  = (Returned tt,
     {| this := set_client (Some c) (set_isInitializing true (this w));
        calls := calls w ++ [NewClient c; ClientInitialize c] |}).
Proof.
  intros Hr Hi c Hok. run_life. rewrite Hr, Hi. fold c. rewrite Hok. cbn.
  rewrite <- app_assoc. reflexivity.
Qed.

Lemma step_keeps_flag (e : Event) (p p' : Process) :
  isInitializing (this (world p)) = true ->
  keepsFlag e = true ->
  step e p = Some p' ->
  isInitializing (this (world p')) = true
  /\ constructed (calls (world p')) = constructed (calls (world p)).
Proof.
  intros Hflag Hkeep Hstep.
  destruct e as [|c [err|[]]| | |info| | |]; cbn [keepsFlag] in Hkeep;
    try discriminate Hkeep; cbn [step] in Hstep.
  - rewrite initialize_begin_guarded in Hstep by (right; exact Hflag).
    injection Hstep as <-. split; [exact Hflag|reflexivity].
  - destruct (existsb _ _); [|discriminate].
    injection Hstep as <-. split; [exact Hflag|reflexivity].
  - unfold emitted in Hstep. destruct (0 <? _)%nat; [|discriminate].
    injection Hstep as <-. split; [exact Hflag|reflexivity].
  - unfold emitted in Hstep. destruct (0 <? _)%nat; [|discriminate].
    injection Hstep as <-. split; [exact Hflag|reflexivity].
  - unfold emitted in Hstep. destruct (0 <? _)%nat; [|discriminate].
    injection Hstep as <-. split; [exact Hflag|reflexivity].
  - unfold emitted in Hstep. destruct (0 <? _)%nat; [|discriminate].
    injection Hstep as <-. split; [exact Hflag|reflexivity].
Qed.

(** X10: isInitializing, set by [initialize()], is cleared only by the
    ready and auth_failure callbacks and by a rejected start.  So from a
    state where it is set, as long as none of these three happens, every
    turn leaves it set and no call of [initialize()] constructs a client,
    whatever else runs in between: the start resolving, qr, authenticated
    and disconnected callbacks, and the reset of [disconnect()].  In
    particular initialize, disconnect, initialize with no ready callback
    in between constructs one client only. *)
Theorem initialize_blocked_while_flag_set (es : list Event) (p p' : Process) :
  isInitializing (this (world p)) = true ->
  forallb keepsFlag es = true ->
  run anyTurn es p = Some p' ->
  isInitializing (this (world p')) = true
  /\ constructed (calls (world p')) = constructed (calls (world p)).
Proof.
  revert p. induction es as [|e rest IH]; intros p Hflag Hkeep Hrun; cbn in Hrun.
  - injection Hrun as <-. split; [exact Hflag|reflexivity].
  - cbn [forallb] in Hkeep. apply andb_true_iff in Hkeep as [He Hrest].
    destruct (step e p) as [q|] eqn:Hstep; [|discriminate].
    destruct (step_keeps_flag e p q Hflag He Hstep) as [Hq Hmade].
    destruct (IH q Hq Hrest Hrun) as [Hp' Hsame].
    split; [exact Hp'|]. rewrite Hsame. exact Hmade.
Qed.

Lemma initialize_blocked_while_flag_set_witness :
  run anyTurn
    [CallsInitialize; InitializeSettles 0 (inr tt); EmitsQr "2@qr";
     DisconnectResets; CallsInitialize] start
  = Some {| world :=
              {| this := {| client := None; isInitializing := true;
                            qrCodeData := None; isReady := false;
                            phoneNumber := None |};
                 calls := [NewClient 0; ClientInitialize 0] |};
            inFlight := [] |}
  /\ constructed [NewClient 0; ClientInitialize 0] = 1.
Proof.
  split; [reflexivity|].
  exact (proj2 (initialize_blocked_while_flag_set
                  [InitializeSettles 0 (inr tt); EmitsQr "2@qr";
                   DisconnectResets; CallsInitialize]
                  {| world :=
                       {| this := {| client := Some 0; isInitializing := true;
                                     qrCodeData := None; isReady := false;
                                     phoneNumber := None |};
                          calls := [NewClient 0; ClientInitialize 0] |};
                     inFlight := [0] |}
                  {| world :=
                       {| this := {| client := None; isInitializing := true;
                                     qrCodeData := None; isReady := false;
                                     phoneNumber := None |};
                          calls := [NewClient 0; ClientInitialize 0] |};
                     inFlight := [] |}
                  eq_refl eq_refl eq_refl)).
Defined.

Lemma initialize_retry_after_rejection_start provider (w : World Service Call) e :
  clientReady (this w) = false ->
  isInitializing (this w) = false ->
  clientInitialize provider (calls w ++ [NewClient (constructed (calls w))])
    (constructed (calls w)) = inl e ->
  let failed :=
    {| this := set_isInitializing false
                 (set_client (Some (constructed (calls w)))
                    (set_isInitializing true (this w)));
       calls := calls w ++ [NewClient (constructed (calls w));
                            ClientInitialize (constructed (calls w))] |} in
  initialize provider w = (Thrown e, failed)
  /\ isInitializing (this failed) = false.
Proof.
  intros Hr Hi Hfail. cbv zeta. split; [|reflexivity].
  run_life. rewrite Hr, Hi, Hfail. cbn. rewrite <- app_assoc. reflexivity.
Qed.

(** X11: when the start of the client is rejected, [initialize()] passes
    the error on with isInitializing cleared and the client that failed
    still in place (it is neither destroyed nor forgotten); on a service
    that is not ready, the next [initialize()] then constructs another
    client and starts it. *)
Theorem initialize_retry_after_rejection provider (w : World Service Call) e :
  isReady (this w) = false ->
  isInitializing (this w) = false ->
  clientInitialize provider (calls w ++ [NewClient (constructed (calls w))])
    (constructed (calls w)) = inl e ->
  let c := constructed (calls w) in
  let failed :=
    {| this := set_isInitializing false
                 (set_client (Some c) (set_isInitializing true (this w)));
       calls := calls w ++ [NewClient c; ClientInitialize c] |} in
  initialize provider w = (Thrown e, failed)
  /\ client (this failed) = Some c
  /\ initialize_begin failed
     = (Returned (Some (S c)),
        {| this := set_client (Some (S c)) (set_isInitializing true (this failed));
           calls := calls failed ++ [NewClient (S c); ClientInitialize (S c)] |}).
Proof.
  intros Hready Hi Hfail c failed.
  assert (Hr : clientReady (this w) = false).
  { apply clientReady_false. right. exact Hready. }
  split; [|split; [reflexivity|]].
  - subst failed c. run_life. rewrite Hr, Hi, Hfail. cbn.
    rewrite <- app_assoc. reflexivity.
  - assert (Hc : constructed (calls failed) = S c).
    { subst failed. cbn [calls]. rewrite constructed_app. cbn. subst c. lia. }
    rewrite <- Hc. apply initialize_begin_open.
    + apply clientReady_false. right. subst failed. exact Hready.
    + reflexivity.
Qed.

Lemma initialize_retry_after_rejection_witness :
  initialize Sample.startFails {| this := fresh; calls := [] |}
  = (Thrown Sample.timeout,
     {| this := {| client := Some 0; isInitializing := false; qrCodeData := None;
                   isReady := false; phoneNumber := None |};
        calls := [NewClient 0; ClientInitialize 0] |}).
Proof.
  exact (proj1 (initialize_retry_after_rejection Sample.startFails
                  {| this := fresh; calls := [] |} Sample.timeout
                  eq_refl eq_refl eq_refl)).
Defined.

End LifecycleOrder.

(* ================================================================== *)
(** ** What every run of the session keeps *)

Section LifecycleInvariant.
Import Js Eff Session SessionContracts.

Lemma knownClients_start : knownClients start.
Proof.
  repeat split; cbn; try discriminate; constructor.
Qed.

Lemma emitted_knownClients (f : Service -> Service) (p p' : Process) :
  (forall s c, client (f s) = Some c -> client s = Some c) ->
  emitted f p = Some p' ->
  knownClients p -> knownClients p'.
Proof.
  unfold emitted, knownClients. intros Hf Hstep (Hclient & Hflight & Hdup & _).
  destruct (0 <? _)%nat eqn:Hmade; [|discriminate].
  apply Nat.ltb_lt in Hmade.
  injection Hstep as <-. cbn [onThis world this calls inFlight].
  split; [|split; [exact Hflight|split; [exact Hdup|intros Hz; exfalso; lia]]].
  intros c Hc. apply Hclient, Hf, Hc.
Qed.

Lemma step_knownClients (e : Event) (p p' : Process) :
  step e p = Some p' -> knownClients p -> knownClients p'.
Proof.
  intros Hstep Hinv.
  destruct e; cbn [step] in Hstep;
    try (revert Hstep Hinv; apply emitted_knownClients;
         intros s c0; unfold on_qr, on_authenticated, on_ready, on_disconnected,
           on_auth_failure, disconnect_reset; cbn;
         try (destruct (client s), info; cbn); congruence).
  - (* a call of initialize() *)
    destruct (clientReady (this (world p))) eqn:Hr.
    { rewrite initialize_begin_guarded in Hstep by (left; exact Hr).
      injection Hstep as <-. exact Hinv. }
    destruct (isInitializing (this (world p))) eqn:Hi.
    { rewrite initialize_begin_guarded in Hstep by (right; exact Hi).
      injection Hstep as <-. exact Hinv. }
    rewrite (initialize_begin_open _ Hr Hi) in Hstep.
    injection Hstep as <-.
    destruct Hinv as (Hclient & Hflight & Hdup & _).
    unfold knownClients. cbn [world inFlight this calls].
    rewrite constructed_app. cbn [constructed filter isNewClient List.length].
    set (made := constructed (calls (world p))) in *.
    split; [|split; [|split]].
    + intros c Hc. cbn in Hc. injection Hc as <-. lia.
    + constructor; [lia|].
      eapply Forall_impl; [|exact Hflight]. cbn. intros; lia.
    + constructor; [|exact Hdup].
      intros Hin. rewrite Forall_forall in Hflight.
      specialize (Hflight made Hin). lia.
    + intros Hz. exfalso. lia.
  - (* the promise of client.initialize() settles *)
    destruct (existsb (Nat.eqb c) (inFlight p)) eqn:Hin; [|discriminate].
    injection Hstep as <-.
    destruct Hinv as (Hclient & Hflight & Hdup & _).
    apply existsb_exists in Hin as (c' & Hin & Heq). apply Nat.eqb_eq in Heq as <-.
    assert (Hworld : client (this (snd (initialize_resume settled (world p))))
                     = client (this (world p))
                     /\ calls (snd (initialize_resume settled (world p)))
                        = calls (world p)).
    { destruct settled as [err|[]]; split; reflexivity. }
    destruct Hworld as [Hsame Hcalls].
    unfold knownClients. cbn [world inFlight]. rewrite Hsame, Hcalls.
    rewrite Forall_forall in Hflight.
    split; [exact Hclient|]. split; [|split].
    + apply Forall_forall. intros x Hx. apply filter_In in Hx as [Hx _].
      apply Hflight, Hx.
    + apply NoDup_filter, Hdup.
    + intros Hzero. specialize (Hflight c Hin). exfalso. lia.
  - (* ready *)
    revert Hstep Hinv. apply emitted_knownClients.
    intros s c0. unfold on_ready. cbn.
    destruct (client s) as [c1|] eqn:Hc, info as [user|]; cbn; congruence.
Qed.

Lemma run_knownClients (es : list Event) (p p' : Process) :
  run anyTurn es p = Some p' -> knownClients p -> knownClients p'.
Proof.
  revert p. induction es as [|e rest IH]; intros p Hrun Hinv; cbn in Hrun.
  - injection Hrun as <-. exact Hinv.
  - destruct (step e p) as [q|] eqn:Hstep; [|discriminate].
    apply (IH q Hrun). exact (step_knownClients e p q Hstep Hinv).
Qed.

(** X12: in every run of the service, the client it holds and the clients
    whose start is awaited are clients it has constructed, none is awaited
    twice, and as long as no client has been constructed the status shows
    not connected, no phone number and no QR code. *)
Theorem session_knows_its_clients (es : list Event) (p : Process) :
  run anyTurn es start = Some p ->
  let made := constructed (calls (world p)) in
  (forall c, client (this (world p)) = Some c -> (c < made)%nat)
  /\ Forall (fun c => (c < made)%nat) (inFlight p)
  /\ NoDup (inFlight p)
  /\ (made = 0 ->
      getStatus (this (world p))
      = {| Status.isConnected := false;
           Status.phoneNumber := None;
           Status.qrCode := None |}
      /\ getQRCode (this (world p)) = None).
Proof.
  intros Hrun.
  destruct (run_knownClients es start p Hrun knownClients_start)
    as (Hclient & Hflight & Hdup & Hfresh).
  cbv zeta. split; [exact Hclient|]. split; [exact Hflight|]. split; [exact Hdup|].
  intros Hzero. rewrite (Hfresh Hzero). split; reflexivity.
Qed.

Lemma session_knows_its_clients_witness :
  NoDup [1; 0]
  /\ Forall (fun c => (c < 2)%nat) [1; 0].
Proof.
  destruct (session_knows_its_clients
              [CallsInitialize; EmitsAuthFailure "LOGOUT"; CallsInitialize]
              {| world :=
                   {| this := {| client := Some 1; isInitializing := true;
                                 qrCodeData := None; isReady := false;
                                 phoneNumber := None |};
                      calls := [NewClient 0; ClientInitialize 0;
                                NewClient 1; ClientInitialize 1] |};
                 inFlight := [1; 0] |} eq_refl)
    as (_ & Hflight & Hdup & _).
  split; [exact Hdup|exact Hflight].
Defined.

End LifecycleInvariant.

(* ================================================================== *)
(** ** The API key *)

Section ApiKey.
Import Js Auth.

Lemma truthy_nonempty (s : string) : truthy s = true <-> s <> EmptyString.
Proof. destruct s; cbn; split; congruence. Qed.

(** X13: the middleware hands a request on exactly when API_SECRET is a
    non-empty string and the request carries that very string, in the
    x-api-key header or, when that header is missing or empty, in the apiKey
    query parameter; and it answers 500 exactly when API_SECRET is unset or
    empty, whatever the request carries. *)
Theorem authenticateApiKey_next_iff (API_SECRET : option string) (req : Request) :
  (authenticateApiKey API_SECRET req = Next
   <-> exists k,
         API_SECRET = Some k /\ k <> EmptyString
         /\ (header_x_api_key req = Text k
             \/ (truthyValue (header_x_api_key req) = false
                 /\ query_apiKey req = Text k)))
  /\ (authenticateApiKey API_SECRET req = Rejected 500 "API_SECRET not configured"
      <-> API_SECRET = None \/ API_SECRET = Some EmptyString).
Proof.
  unfold authenticateApiKey, orValue.
  destruct API_SECRET as [[|a k]|]; cbn [truthyOpt truthy negb].
  - split.
    + split; [discriminate|]. intros (k & H & Hk & _). injection H as <-. congruence.
    + split; auto.
  - split.
    + split.
      * destruct (truthyValue (header_x_api_key req)) eqn:Hh.
        -- rewrite Hh. cbn [negb orb].
           destruct (header_x_api_key req) as [|h|]; cbn; try discriminate.
           destruct (String.eqb h (String a k)) eqn:Heq; cbn; [|discriminate].
           apply String.eqb_eq in Heq as ->. intros _.
           exists (String a k). repeat split; [discriminate|left; reflexivity].
        -- destruct (truthyValue (query_apiKey req)) eqn:Hq; [|discriminate].
           cbn [negb orb].
           destruct (query_apiKey req) as [|q|]; cbn; try discriminate.
           destruct (String.eqb q (String a k)) eqn:Heq; cbn; [|discriminate].
           apply String.eqb_eq in Heq as ->. intros _.
           exists (String a k). repeat split; [discriminate|right; split; reflexivity].
      * intros (k' & Hk & _ & [Hh|[Hh Hq]]); injection Hk as <-.
        -- rewrite Hh. cbn. rewrite Ascii.eqb_refl, String.eqb_refl. reflexivity.
        -- rewrite Hh, Hq. cbn. rewrite Ascii.eqb_refl, String.eqb_refl. reflexivity.
    + split; [|intros [H|H]; discriminate H].
      destruct (_ || _); discriminate.
  - split.
    + split; [discriminate|]. intros (k & H & _). discriminate H.
    + split; auto.
Qed.

(** X14: the header comes first: a non-empty x-api-key header that is not
    the secret gets 401 even when the apiKey query parameter is the secret,
    while an empty header lets the query parameter decide. *)
Theorem authenticateApiKey_header_first (k h : string) (q : Value) :
  k <> EmptyString ->
  h <> EmptyString ->
  h <> k ->
  authenticateApiKey (Some k) {| header_x_api_key := Text h; query_apiKey := q |}
  = Rejected 401 "Invalid or missing API key"
  /\ authenticateApiKey (Some k)
       {| header_x_api_key := Text EmptyString; query_apiKey := Text k |}
     = Next.
Proof.
  intros Hk Hh Hne. apply String.eqb_neq in Hne.
  destruct k as [|a k]; [congruence|]. destruct h as [|b h]; [congruence|].
  unfold authenticateApiKey, orValue.
  cbn [header_x_api_key query_apiKey truthyValue truthyOpt truthy negb orb differs].
  rewrite Hne, String.eqb_refl. split; reflexivity.
Qed.

Lemma authenticateApiKey_header_first_witness :
  authenticateApiKey (Some "s3cret")
    {| header_x_api_key := Text "guess"; query_apiKey := Text "s3cret" |}
  = Rejected 401 "Invalid or missing API key".
Proof.
  refine (proj1 (authenticateApiKey_header_first "s3cret" "guess" (Text "s3cret")
                   _ _ _)); discriminate.
Defined.

End ApiKey.

(* ================================================================== *)
(** ** The routes of the session service *)

Section SessionRouteFacts.
Import Js Eff Session Http SessionRoutes SessionContracts.

Ltac run_route :=
  unfold postSend, postSendMedia, postDisconnect, postInitialize, getQr,
    getStatusRoute, tryCatch, bind, getThis, ret, throw;
  cbn [fst snd this calls].

Lemma sendMessage_answered provider request (w : World Service Call) :
  exists r w',
    sendMessage provider request w = (Returned r, w') /\ this w' = this w.
Proof.
  destruct (session_sendMessage_shape provider w request) as (r & Hr & Hthis & _).
  exists r, (snd (sendMessage provider request w)).
  split; [rewrite <- Hr; apply surjective_pairing|exact Hthis].
Qed.

(** X15: for bodies whose fields are strings or missing and a provider
    that answers with values of the library's types or rejects with error
    objects, POST /send and POST /send-media answer 400 with their
    validation message, and do nothing, when a required field is missing
    or empty; otherwise they pass the body to [sendMessage] (POST /send
    without mediaUrl) and answer with its result, under 200 when it
    succeeded and under 400 when it failed; they never answer 500 and
    never change the fields of the service. *)
Theorem session_send_routes_answer provider body (w : World Service Call) :
  (truthyOpt (recipientPhone body) = false \/ truthyOpt (content body) = false ->
   postSend provider body w
   = (Returned {| status := 400;
                  body := Failure (Some "recipientPhone e content são obrigatórios") |},
      w))
  /\ (truthyOpt (recipientPhone body) = true ->
      truthyOpt (content body) = true ->
      exists r w',
        sendMessage provider
          {| Session.recipientPhone := text (recipientPhone body);
             Session.recipientName := recipientName body;
             Session.content := text (content body);
             Session.mediaUrl := None |} w
        = (Returned r, w')
        /\ this w' = this w
        /\ postSend provider body w
           = (Returned {| status := if success r then 200 else 400;
                          body := Result r |}, w'))
  /\ (truthyOpt (recipientPhone body) = false \/ truthyOpt (content body) = false
      \/ truthyOpt (mediaUrl body) = false ->
      postSendMedia provider body w
      = (Returned {| status := 400;
                     body := Failure
                               (Some "recipientPhone, content e mediaUrl são obrigatórios") |},
         w))
  /\ (truthyOpt (recipientPhone body) = true ->
      truthyOpt (content body) = true ->
      truthyOpt (mediaUrl body) = true ->
      exists r w',
        sendMessage provider
          {| Session.recipientPhone := text (recipientPhone body);
             Session.recipientName := recipientName body;
             Session.content := text (content body);
             Session.mediaUrl := mediaUrl body |} w
        = (Returned r, w')
        /\ this w' = this w
        /\ postSendMedia provider body w
           = (Returned {| status := if success r then 200 else 400;
                          body := Result r |}, w')).
Proof.
  split; [|split; [|split]]; run_route.
  - intros [H|H]; rewrite H; cbn [negb orb]; [reflexivity|].
    rewrite orb_true_r. reflexivity.
  - intros Hp Hc. rewrite Hp, Hc. cbn [negb orb].
    match goal with
    | |- context [sendMessage provider ?req w] =>
        destruct (sendMessage_answered provider req w) as (r & w' & Hsend & Hthis)
    end.
    exists r, w'. rewrite Hsend. split; [reflexivity|]. split; [exact Hthis|].
    unfold answerResult, json. destruct (success r); reflexivity.
  - intros [H|[H|H]]; rewrite H; cbn [negb orb];
      rewrite ?orb_true_r; reflexivity.
  - intros Hp Hc Hm. rewrite Hp, Hc, Hm. cbn [negb orb].
    match goal with
    | |- context [sendMessage provider ?req w] =>
        destruct (sendMessage_answered provider req w) as (r & w' & Hsend & Hthis)
    end.
    exists r, w'. rewrite Hsend. split; [reflexivity|]. split; [exact Hthis|].
    unfold answerResult, json. destruct (success r); reflexivity.
Qed.

Ltac route_answers :=
  repeat (match goal with
          | |- context [match client ?s with _ => _ end] =>
              destruct (client s) eqn:?
          | |- context [if isReady ?s then _ else _] =>
              destruct (isReady s) eqn:?
          | |- context [match getNumberId ?p ?h ?c ?n with _ => _ end] =>
              destruct (getNumberId p h c n) as [?|[[[|? ?]]|]]
          | |- context [match fromUrl ?p ?h ?u with _ => _ end] =>
              destruct (fromUrl p h u)
          | |- context [match clientSendMessage ?p ?h ?c ?i ?x ?o with _ => _ end] =>
              destruct (clientSendMessage p h c i x o)
          end; cbn).

(** X16: POST /send never downloads or sends media (a mediaUrl in its body
    is ignored): what it sends is the content as plain text.  POST
    /send-media never sends plain text: what it sends is media downloaded
    from the given URL, with the content as caption. *)
Theorem session_send_routes_content provider body (w : World Service Call) :
  (exists added,
      calls (snd (postSend provider body w)) = (calls w ++ added)%list
      /\ Forall (plainOnly (text (content body))) added)
  /\ (exists added,
        calls (snd (postSendMedia provider body w)) = (calls w ++ added)%list
        /\ Forall (mediaOnly (text (content body)) (text (mediaUrl body))) added).
Proof.
  split; run_route.
  - destruct (truthyOpt (recipientPhone body)), (truthyOpt (content body));
      cbn [negb orb fst snd calls];
      try (exists []; split; [symmetry; apply app_nil_r|constructor]).
    unfold sendMessage, bind, getThis, tryCatch, await, ret, throw, answerResult.
    cbn [fst snd this calls Session.mediaUrl Session.content Session.recipientPhone].
    route_answers;
      (eexists; split;
       [ first [ rewrite <- ?app_assoc; reflexivity | symmetry; apply app_nil_r ] | ]);
      cbn [app]; repeat constructor.
  - destruct (truthyOpt (recipientPhone body)), (truthyOpt (content body)),
      (mediaUrl body) as [[|a url]|];
      cbn [negb orb fst snd calls truthyOpt truthy];
      try (exists []; split; [symmetry; apply app_nil_r|constructor]).
    unfold sendMessage, bind, getThis, tryCatch, await, ret, throw, answerResult.
    cbn [fst snd this calls Session.mediaUrl Session.content Session.recipientPhone
         truthy text].
    route_answers;
      (eexists; split;
       [ first [ rewrite <- ?app_assoc; reflexivity | symmetry; apply app_nil_r ] | ]);
      cbn [app]; repeat constructor; eauto.
Qed.

End SessionRouteFacts.

(* ================================================================== *)
(** ** The application around the session routes *)

Section ApplicationFacts.
Import Js Eff Session Http SessionRoutes.

Ltac run_app :=
  unfold handle, route, postDisconnect, postInitialize, getQr, getStatusRoute,
    tryCatch, bind, getThis, ret, throw;
  cbn [fst snd this calls].

(** X17: a request whose body the parsers cannot read is answered 500 by
    the error handler, whatever its route and key, and the service is not
    touched.  Of the requests whose body is read: one to a route under
    /api/whatsapp that does not pass the API-key middleware is answered 401
    or 500 without the service being touched (no provider call is made and
    no field changes); one over the rate limit is answered 429 in the same
    way, even with the right key; and /health is answered 200 with no key
    at all. *)
Theorem handle_guards_the_service provider toDataURL API_SECRET unparsed
    withinLimit credentials (e : Endpoint) (w : World Service Call) :
  let r := handle provider toDataURL API_SECRET unparsed withinLimit credentials e w in
  (forall err, unparsed = Some err ->
     r = (Returned {| status := 500;
                      body := Failure (orElse (err_message err)
                                         (Some "Internal server error")) |}, w))
  /\ (unparsed = None -> e = GetHealth -> r = (Returned (json Health), w))
  /\ (unparsed = None -> e <> GetHealth -> withinLimit = false ->
      r = (Returned {| status := 429; body := TooManyRequests |}, w))
  /\ (unparsed = None -> e <> GetHealth -> withinLimit = true ->
      Auth.authenticateApiKey API_SECRET credentials <> Auth.Next ->
      exists code message,
        r = (Returned {| status := code; body := Failure (Some message) |}, w)
        /\ (code = 401 \/ code = 500))
  /\ (unparsed = None -> e <> GetHealth -> withinLimit = true ->
      Auth.authenticateApiKey API_SECRET credentials = Auth.Next ->
      r = route provider toDataURL e w).
Proof.
  cbv zeta. split; [intros err ->; reflexivity|].
  split; [intros -> ->; reflexivity|].
  split; [|split].
  - intros -> He ->. destruct e; try congruence; reflexivity.
  - intros -> He -> Hauth.
    assert (Hcode : exists code message,
               Auth.authenticateApiKey API_SECRET credentials
               = Auth.Rejected code message /\ (code = 401 \/ code = 500)).
    { revert Hauth. unfold Auth.authenticateApiKey.
      destruct (negb (truthyOpt API_SECRET)); [eauto|].
      destruct (_ || _); [eauto|congruence]. }
    destruct Hcode as (code & message & Hrej & Hcode).
    exists code, message. split; [|exact Hcode].
    unfold handle. rewrite Hrej. destruct e; try congruence; reflexivity.
  - intros -> He -> Hauth. unfold handle. rewrite Hauth.
    destruct e; try congruence; reflexivity.
Qed.

Lemma handle_guards_the_service_witness :
  exists code message,
    handle Sample.healthy (fun _ => inr "data:image/png;base64,AAAA")
      (Some "s3cret") None true
      {| Auth.header_x_api_key := Auth.Absent; Auth.query_apiKey := Auth.Absent |}
      (PostSend {| recipientPhone := Some "11999999999"; recipientName := None;
                   content := Some "oi"; mediaUrl := None |})
      {| this := Sample.connected; calls := [] |}
    = (Returned {| status := code; body := Failure (Some message) |},
       {| this := Sample.connected; calls := [] |})
    /\ (code = 401 \/ code = 500).
Proof.
  refine (proj1 (proj2 (proj2 (proj2 (handle_guards_the_service Sample.healthy
            (fun _ => inr "data:image/png;base64,AAAA") (Some "s3cret") None true
            {| Auth.header_x_api_key := Auth.Absent; Auth.query_apiKey := Auth.Absent |}
            (PostSend {| recipientPhone := Some "11999999999"; recipientName := None;
                         content := Some "oi"; mediaUrl := None |})
            {| this := Sample.connected; calls := [] |})))) eq_refl _ eq_refl _);
    discriminate.
Defined.

(** X18: POST /disconnect answers 200 or 500.  It answers 500 exactly when
    there is a client and its [logout], or after it its [destroy], is
    rejected, and then every field of the service is as it was; with no
    client it answers 200 and does nothing. *)
Theorem postDisconnect_answer provider (w : World Service Call) :
  exists resp w',
    postDisconnect provider w = (Returned resp, w')
    /\ (status resp = 200 \/ status resp = 500)
    /\ (status resp = 500
        <-> exists c e,
              client (this w) = Some c
              /\ (logout provider (calls w) c = inl e
                  \/ (logout provider (calls w) c = inr tt
                      /\ destroy provider (calls w ++ [Logout c]) c = inl e)))
    /\ (status resp = 500 -> this w' = this w)
    /\ (client (this w) = None -> status resp = 200 /\ w' = w).
Proof.
  run_app. unfold disconnect, bind, getThis, tryCatch, await, ret, throw, modifyThis.
  cbn [fst snd this calls].
  destruct (client (this w)) as [c|] eqn:Hclient.
  - destruct (logout provider (calls w) c) as [e|[]] eqn:Hlogout; cbn.
    + do 2 eexists. split; [reflexivity|]. cbn.
      split; [right; reflexivity|]. split; [|split; [reflexivity|discriminate]].
      split; [|reflexivity]. intros _. exists c, e. split; [reflexivity|].
      left. exact Hlogout.
    + destruct (destroy provider (calls w ++ [Logout c]) c) as [e|[]] eqn:Hdestroy; cbn.
      * do 2 eexists. split; [reflexivity|]. cbn.
        split; [right; reflexivity|]. split; [|split; [reflexivity|discriminate]].
        split; [|reflexivity]. intros _. exists c, e. split; [reflexivity|].
        right. split; [exact Hlogout|exact Hdestroy].
      * do 2 eexists. split; [reflexivity|]. cbn.
        split; [left; reflexivity|]. split; [|split; discriminate].
        split; [discriminate|].
        intros (c' & e & Hc & [H|[_ H]]); injection Hc as <-; congruence.
  - do 2 eexists. split; [reflexivity|]. cbn.
    split; [left; reflexivity|]. split; [|split; [discriminate|]].
    + split; [discriminate|]. intros (c & e & Hc & _). discriminate Hc.
    + intros _. split; [reflexivity|]. destruct w; reflexivity.
Qed.

(** X19: the reading routes read only: /health, /status and /qr make no
    provider call and change no field.  /status always answers 200 with
    the status of the service; /qr answers 404 exactly when the service
    holds no QR code or an empty one. *)
Theorem reading_routes_read_only provider toDataURL (w : World Service Call) :
  route provider toDataURL GetHealth w = (Returned (json Health), w)
  /\ route provider toDataURL GetStatus w
     = (Returned (json (SessionStatus (getStatus (this w)))), w)
  /\ exists resp,
       route provider toDataURL GetQr w = (Returned resp, w)
       /\ (status resp = 404 <-> truthyOpt (getQRCode (this w)) = false).
Proof.
  split; [reflexivity|]. split; [reflexivity|].
  run_app. unfold getQRCode.
  destruct (qrCodeData (this w)) as [[|a qr]|]; cbn.
  - eexists. split; [reflexivity|]. cbn. split; reflexivity.
  - destruct (toDataURL (String a qr)) as [e|image]; cbn;
      (eexists; split; [reflexivity|]); cbn; split; discriminate.
  - eexists. split; [reflexivity|]. cbn. split; reflexivity.
Qed.

(** X20: POST /initialize answers 200 or 500.  On a service whose guards
    are closed (ready, or already initializing) it answers 200 although
    nothing was done.  It answers 500 exactly when the guards were open and
    the start of the new client was rejected, and then isInitializing is
    cleared again. *)
Theorem postInitialize_answer provider (w : World Service Call) :
  exists resp w',
    postInitialize provider w = (Returned resp, w')
    /\ (status resp = 200 \/ status resp = 500)
    /\ (guarded (this w) = true -> status resp = 200 /\ w' = w)
    /\ (status resp = 500
        <-> guarded (this w) = false
            /\ exists e,
                 clientInitialize provider
                   (calls w ++ [NewClient (constructed (calls w))])
                   (constructed (calls w)) = inl e)
    /\ (status resp = 500 -> isInitializing (this w') = false).
Proof.
  unfold postInitialize, tryCatch, bind, ret. unfold guarded.
  destruct (isInitializing (this w)) eqn:Hi.
  { rewrite initialize_guarded by (right; exact Hi).
    do 2 eexists. split; [reflexivity|]. cbn.
    split; [left; reflexivity|]. split; [intros _; split; reflexivity|].
    split; [|discriminate]. split; [discriminate|]. intros [H _]. discriminate H. }
  destruct (clientReady (this w)) eqn:Hr.
  { rewrite initialize_guarded by (left; exact Hr).
    do 2 eexists. split; [reflexivity|]. cbn.
    split; [left; reflexivity|]. split; [intros _; split; reflexivity|].
    split; [|discriminate]. split; [discriminate|]. intros [H _]. discriminate H. }
  cbn [orb].
  destruct (clientInitialize provider
              (calls w ++ [NewClient (constructed (calls w))])
              (constructed (calls w))) as [e|[]] eqn:Hstart.
  - destruct (initialize_retry_after_rejection_start provider w e Hr Hi Hstart)
      as [Hthrown Hflag].
    rewrite Hthrown. do 2 eexists. split; [reflexivity|]. cbn.
    split; [right; reflexivity|]. split; [discriminate|].
    split; [|intros _; exact Hflag].
    split; [|reflexivity]. intros _. split; [reflexivity|]. exists e. reflexivity.
  - rewrite (initialize_resolved provider w Hr Hi Hstart).
    do 2 eexists. split; [reflexivity|]. cbn.
    split; [left; reflexivity|]. split; [discriminate|].
    split; [|discriminate]. split; [discriminate|]. intros [_ [e He]]. discriminate He.
Qed.

End ApplicationFacts.

(* ================================================================== *)
(** ** The routes of the Cloud-API service *)

Section CloudRouteFacts.
Import Js Eff CloudApi Http CloudRoutes.

Ltac run_cloud_route :=
  unfold postSend, postSendLink, getStatusRoute, tryCatch, bind, getThis, ret, throw;
  cbn [fst snd this calls].

(** [sendMessage] returns, with the service as it was. *)
Lemma sendMessage_returns axios (w : World Service Call) request :
  exists r w',
    sendMessage axios request w = (Returned r, w')
    /\ this w' = this w
    /\ Spec.resultShape r.
Proof.
  destruct (sendMessage_shape axios w request) as (r & Hr & Hshape & _).
  exists r, (snd (sendMessage axios request w)).
  split; [rewrite <- Hr; apply surjective_pairing|]. split; [|exact Hshape].
  unfold sendMessage, bind, getThis, tryCatch, await, firstMessageId, ret, throw.
  cbn [fst snd this calls].
  destruct (isConfigured (this w)); cbn [negb]; [|reflexivity].
  match goal with
  | |- context [axios (calls w) ?c] => destruct (axios (calls w) c) as [e|[[|m ms]]]
  end; reflexivity.
Qed.

(** X21: for every outcome of the validation and every answer of the
    transport that is a response with a list of messages (each with or
    without an id) or a rejection with an error object, POST /send of the
    Cloud service answers with 200 or 400 and not 500, and does not change
    the service: what the validation objects to comes back under 400 with
    nothing sent; a validated body is passed to [sendMessage], whose
    result (a success without error, or a failure with an error and
    without message id) comes back under 200 when it succeeded and under
    400 when it failed. *)
Theorem cloud_postSend_answer axios validated (w : World Service Call) :
  exists resp w',
    postSend axios validated w = (Returned resp, w')
    /\ this w' = this w
    /\ (forall message, validated = inl message ->
        resp = {| status := 400; body := Failure (Some message) |} /\ w' = w)
    /\ (forall value, validated = inr value ->
        exists r,
          sendMessage axios value w = (Returned r, w')
          /\ Spec.resultShape r
          /\ body resp = Result r
          /\ status resp = if success r then 200 else 400).
Proof.
  run_cloud_route. destruct validated as [message|value].
  - do 2 eexists. split; [reflexivity|]. split; [reflexivity|].
    split; [|discriminate]. intros m Hm. injection Hm as <-. split; reflexivity.
  - destruct (sendMessage_returns axios w value) as (r & w' & Hsend & Hthis & Hshape).
    rewrite Hsend. exists (answerResult r), w'.
    split; [reflexivity|]. split; [exact Hthis|]. split; [discriminate|].
    intros v Hv. injection Hv as <-. exists r.
    split; [exact Hsend|]. split; [exact Hshape|].
    unfold answerResult. destruct (success r); split; reflexivity.
Qed.

Lemma cloud_postSend_answer_witness :
  exists resp w',
    postSend Sample.accepting (inr Sample.hi) {| this := Sample.cloud; calls := [] |}
    = (Returned resp, w')
    /\ status resp = 200.
Proof.
  destruct (cloud_postSend_answer Sample.accepting (inr Sample.hi)
              {| this := Sample.cloud; calls := [] |})
    as (resp & w' & Hroute & _ & _ & Hvalue).
  exists resp, w'. split; [exact Hroute|].
  destruct (Hvalue Sample.hi eq_refl) as (r & Hsend & _ & _ & Hstatus).
  rewrite Hstatus. injection Hsend as <- _. reflexivity.
Defined.

(** X22: POST /send-link answers 400 and sends nothing when the phone or
    the link is missing or empty.  Otherwise, on a configured service, it
    makes exactly one POST, to the normalised phone, with link preview on,
    whose text is the given message (or the standard invitation when the
    message is missing or empty) followed by a blank line, the link marker
    and the link. *)
Theorem postSendLink_sends_link axios body (w : World Service Call) :
  let r := postSendLink axios body w in
  (truthyOpt (recipientPhone body) = false \/ truthyOpt (linkUrl body) = false ->
   r = (Returned {| status := 400;
                    body := Failure (Some "recipientPhone e linkUrl são obrigatórios") |},
        w))
  /\ (forall phone link,
        recipientPhone body = Some phone -> phone <> EmptyString ->
        linkUrl body = Some link -> link <> EmptyString ->
        isConfigured (this w) = true ->
        exists text,
          (forall m, message body = Some m -> m <> EmptyString -> text = m)
          /\ (message body = None \/ message body = Some EmptyString ->
              text = "Acesse o link abaixo:")
          /\ snd r
             = {| this := this w;
                  calls :=
                    calls w ++
                    [ Post (apiUrl (this w) ++ "/" ++ phoneNumberId (this w)
                            ++ "/messages")
                        (TextPayload
                           {| TextMessage.messaging_product := "whatsapp";
                              TextMessage.recipient_type := "individual";
                              TextMessage.to := formatPhoneNumber phone;
                              TextMessage.type := "text";
                              TextMessage.text :=
                                {| TextMessage.preview_url := true;
                                   TextMessage.body :=
                                     text ++ LF ++ LF ++ "🔗 " ++ link |} |})
                        {| Authorization := "Bearer " ++ accessToken (this w);
                           Content_Type := "application/json" |} ] |}).
Proof.
  cbv zeta. split.
  - intros H. run_cloud_route.
    destruct H as [H|H]; rewrite H; cbn [negb orb]; [reflexivity|].
    rewrite orb_true_r. reflexivity.
  - intros phone link Hphone Hp Hlink Hl Hconf.
    exists (match orElse (message body) (Some "Acesse o link abaixo:") with
            | Some m => m
            | None => EmptyString
            end).
    split; [|split].
    + intros m -> Hm. destruct m; [congruence|reflexivity].
    + intros [->| ->]; reflexivity.
    + run_cloud_route. rewrite Hphone, Hlink.
      destruct phone as [|a phone]; [congruence|].
      destruct link as [|b link]; [congruence|].
      cbn [truthyOpt truthy negb orb].
      unfold sendMessage, bind, getThis, tryCatch, await, firstMessageId, ret, throw,
        messagesUrl, requestHeaders.
      cbn [fst snd this calls CloudApi.recipientPhone CloudApi.message
           CloudApi.linkUrl CloudApi.linkPreview truthy].
      rewrite Hconf. cbn [negb].
      match goal with
      | |- context [axios (calls w) ?c] => destruct (axios (calls w) c) as [e|[[|m ms]]]
      end; reflexivity.
Qed.

Lemma postSendLink_sends_link_witness :
  calls (snd (postSendLink Sample.accepting
                {| recipientPhone := Some "(11) 99999-9999";
                   linkUrl := Some "https://x.com";
                   message := None |}
                {| this := Sample.cloud; calls := [] |}))
  = [ Post "https://graph.facebook.com/v18.0/1234567890/messages"
        (TextPayload
           {| TextMessage.messaging_product := "whatsapp";
              TextMessage.recipient_type := "individual";
              TextMessage.to := "5511999999999";
              TextMessage.type := "text";
              TextMessage.text :=
                {| TextMessage.preview_url := true;
                   TextMessage.body :=
                     "Acesse o link abaixo:" ++ LF ++ LF ++ "🔗 https://x.com" |} |})
        {| Authorization := "Bearer token"; Content_Type := "application/json" |} ].
Proof.
  destruct (proj2 (postSendLink_sends_link Sample.accepting
                     {| recipientPhone := Some "(11) 99999-9999";
                        linkUrl := Some "https://x.com";
                        message := None |}
                     {| this := Sample.cloud; calls := [] |})
              "(11) 99999-9999" "https://x.com"
              eq_refl ltac:(discriminate) eq_refl ltac:(discriminate) eq_refl)
    as (text & _ & Hdefault & Hworld).
  rewrite Hworld, (Hdefault (or_introl eq_refl)). reflexivity.
Defined.

End CloudRouteFacts.
